(** * Try-on orchestration of AI-Hair-Salon: session results, vendor polling,
      video submission and ROI boxes.

    Shallow embedding of
    - [common/services/tryon_service.py]   (class [TryOnService]),
    - [common/services/klingai_service.py] (class [KlingAIService]),
    - [common/services/klingai_video_service.py] (class [KlingAIVideoService]),
    - [common/services/gemini_service.py]  (the two ROI box functions),
    - [services/history_repository.py], [services/garment_repository.py],
      [services/photo_service.py] (the repositories and the encoding that
      the routes use),
    - [routes/api.py] (the try-on, video and history routes).

    Python dictionaries with string keys are finite maps [gmap string _];
    a value that may be [None] is an [option].  A table write of a background
    job is one atomic step. [TryOn.get_result] is a call of [get_result] that
    runs without interruption and whose file test answers; the source
    releases [self._lock] between the table reads and the file test, and the
    file test can raise: module [Calls] has the call phase by phase, with
    the other threads running in between, and with the [OSError]. *)

From Stdlib Require Import ZArith Ascii String.
From stdpp Require Import gmap strings pretty list sorting.

Local Open Scope Z_scope.
Local Open Scope string_scope.

(** ** Python values used by the services *)

(** A dictionary whose values are strings or [None], such as the dictionaries
    returned to the routes: [d !! k = None] when the key is absent,
    [Some None] when it is bound to Python's [None]. *)
Abbreviation PyDict := (gmap string (option string)).

(** A dictionary literal. *)
Definition py_dict (l : list (string * option string)) : PyDict := list_to_map l.

(** Truth value of a string: only the empty string is false. *)
Definition truthy (s : string) : bool := if decide (s = "") then false else true.

(** Truth value of an optional string ([None] is false). *)
Definition truthy_opt (o : option string) : bool :=
  match o with Some s => truthy s | None => false end.

(** The value tested by [if x:] when it passes: [Some s] for a non-empty
    string, [None] for [None] and for the empty string. *)
Definition if_truthy (o : option string) : option string :=
  match o with
  | Some s => if truthy s then Some s else None
  | None => None
  end.

(** [d.get(k)] where an absent key and a [None] value are both [None]. *)
Definition dict_get (d : PyDict) (k : string) : option string :=
  match d !! k with Some v => v | None => None end.

(** [a or b] for an optional string [a] and a string [b]. *)
Definition py_or (a : option string) (b : string) : string :=
  match a with
  | Some s => if truthy s then s else b
  | None => b
  end.

(** ** The session tables of [TryOnService] *)

Module TryOn.

(** The part of a [TryOnService] instance that [get_result] and the background
    jobs read and write: the two dictionaries created in [__init__] and the
    names [f] for which [self._outputs_dir / f] exists. *)
Record Store := mkStore {
  session_outputs : gmap string string;
  session_errors : gmap string string;
  outputs_dir : gset string
}.

Definition set_output (st : Store) (sid out : string) : Store :=
  mkStore (<[sid := out]> (session_outputs st)) (session_errors st) (outputs_dir st).

Definition set_error (st : Store) (sid msg : string) : Store :=
  mkStore (session_outputs st) (<[sid := msg]> (session_errors st)) (outputs_dir st).

Definition add_file (st : Store) (fname : string) : Store :=
  mkStore (session_outputs st) (session_errors st) ({[fname]} ∪ outputs_dir st).

(** The three dictionaries [get_result] returns. *)
Definition error_result (msg : string) : PyDict :=
  py_dict [("status", Some "error"); ("message", Some msg); ("output", None)].

Definition ok_result (out : string) : PyDict :=
  py_dict [("status", Some "ok"); ("output", Some out)].

Definition pending_result : PyDict := py_dict [("status", Some "pending")].

Definition missing_result : PyDict :=
  py_dict [("status", Some "error"); ("message", Some "session_id missing")].

(** [TryOnService.get_result] for a call that no other thread interrupts and
    whose file test answers: the new store and the returned dictionary.
    Module [Calls] below has the call phase by phase and the file test that
    raises. *)
Definition get_result (st : Store) (session_id : string) : Store * PyDict :=
  if negb (truthy session_id) then (st, missing_result)
  else
    match if_truthy (session_errors st !! session_id) with
    | Some err_msg => (st, error_result err_msg)
    | None =>
        match session_outputs st !! session_id with
        | Some out => (st, ok_result out)
        | None =>
            let fname := session_id +:+ ".jpg" in
            if decide (fname ∈ outputs_dir st) then
              let pub := "/static/outputs/" +:+ fname in
              (set_output st session_id pub, ok_result pub)
            else (st, pending_result)
        end
    end.

(** The [status] entry of a returned dictionary. *)
Definition status_of (d : PyDict) : option string := dict_get d "status".


(** *** Background jobs *)

(** What the [try] block of a background job observes of the vendor adapter:
    the dictionary it returned, or the class name of the exception raised. *)
Inductive VendorOutcome :=
  | Returned (res : PyDict)
  | Raised (exc_name : string).

(** The table writes of [_bg_job] (and of [_bg_job_klingai] and
    [_bg_job_advanced], which make the same writes). The history record kept
    by [_save_tryon_record] is not part of the tables. *)
Definition _bg_job (st : Store) (session_id : string) (o : VendorOutcome) : Store :=
  match o with
  | Returned res =>
      let out_public := dict_get res "output_path" in
      match if_truthy out_public with
      | Some out =>
          if decide (dict_get res "status" = Some "ok")
          then set_output st session_id out
          else set_error st session_id (py_or (dict_get res "message") "try-on failed")
      | None => set_error st session_id (py_or (dict_get res "message") "try-on failed")
      end
  | Raised exc_name => set_error st session_id ("error: " +:+ exc_name)
  end.

(** *** Starting a session *)

(** Result of [_write_data_url_to_file] on the user image. *)
Inductive WriteOutcome :=
  | Written
  | WriteValueError (msg : string).

(** Result of the garment resolution that precedes the thread start. *)
Inductive GarmentOutcome :=
  | GarmentResolved
  | GarmentValueError (msg : string)
  | GarmentException (msg : string).

(** What a start call reads from outside the tables: the clock, the settings
    file, the two vendor services and the decoding of the inputs. *)
Record Env := mkEnv {
  now_ms : Z;                    (* int(time.time()*1000) *)
  vendor : string;               (* self._load_vendor_setting() *)
  klingai_present : bool;        (* self.klingai is not None *)
  klingai_keys_set : bool;       (* access_key and secret_key after reload *)
  gemini_present : bool;         (* self.gemini is not None *)
  gemini_client_on : bool;       (* getattr(self.gemini, "client", None) *)
  user_write : WriteOutcome;
  garment_stage : GarmentOutcome
}.

Record Request := mkRequest {
  user_image_data_url : string;
  garment_image_url : option string;
  user_note : option string
}.

(** [f"tryon_{int(time.time()*1000)}"] *)
Definition new_session_id (env : Env) : string := "tryon_" +:+ pretty (now_ms env).

Definition start_error (msg : string) : PyDict :=
  py_dict [("status", Some "error"); ("message", Some msg)].

Definition start_processing (session_id : string) (preview : option string) : PyDict :=
  py_dict [("session_id", Some session_id); ("status", Some "processing");
           ("preview", preview)].

Definition is_data_image (url : string) : bool := String.prefix "data:image" url.

(** A start call returns the store, the session id of the thread it started
    (if any) and the dictionary handed to the caller. *)
Definition StartResult : Type := Store * option string * PyDict.

Definition _start_tryon_klingai (st : Store) (env : Env) (session_id : string)
    (req : Request) : StartResult :=
  if negb (klingai_present env) then
    (st, None, start_error "KlingAI service not initialized")
  else if negb (klingai_keys_set env) then
    (st, None, start_error "KlingAI API 金鑰未設定，請至管理控制台→系統設定中填入 KLINGAI_ACCESS_KEY 和 KLINGAI_SECRET_KEY")
  else
    match user_write env with
    | WriteValueError msg => (st, None, start_error msg)
    | Written =>
        match garment_stage env with
        | GarmentResolved =>
            (st, Some session_id,
             start_processing session_id (Some (user_image_data_url req)))
        | GarmentValueError msg => (st, None, start_error msg)
        | GarmentException msg => (st, None, start_error msg)
        end
    end.

(** The fallback at the end of [_start_tryon_gemini]. *)
Definition gemini_fallback (session_id : string) (req : Request) : PyDict :=
  if truthy (user_image_data_url req) && is_data_image (user_image_data_url req)
  then start_processing session_id (Some (user_image_data_url req))
  else start_processing session_id None.

Definition _start_tryon_gemini (st : Store) (env : Env) (session_id : string)
    (req : Request) : StartResult :=
  if gemini_present env && truthy (user_image_data_url req)
     && is_data_image (user_image_data_url req)
  then
    match user_write env with
    | WriteValueError msg => (st, None, start_error msg)
    | Written =>
        match garment_stage env with
        | GarmentResolved =>
            (st, Some session_id,
             start_processing session_id (Some (user_image_data_url req)))
        | GarmentValueError msg => (st, None, start_error msg)
        | GarmentException _ => (st, None, gemini_fallback session_id req)
        end
    end
  else (st, None, gemini_fallback session_id req).

(** [TryOnService.start_tryon] *)
Definition start_tryon (st : Store) (env : Env) (req : Request) : StartResult :=
  let session_id := new_session_id env in
  if decide (vendor env = "KlingAI")
  then _start_tryon_klingai st env session_id req
  else _start_tryon_gemini st env session_id req.

(** [TryOnService.start_tryon_advanced], the entry point used by the
    [/api/try-on] route. *)
Definition start_tryon_advanced (st : Store) (env : Env) (req : Request) : StartResult :=
  let session_id := new_session_id env in
  if decide (vendor env = "KlingAI")
  then _start_tryon_klingai st env session_id req
  else if negb (gemini_present env) || negb (gemini_client_on env) then
    (set_error st session_id "Gemini client unavailable", None,
     py_dict [("session_id", Some session_id); ("status", Some "error");
              ("message", Some "Gemini client unavailable")])
  else if negb (truthy (user_image_data_url req)
                && is_data_image (user_image_data_url req)) then
    (st, None, start_processing session_id None)
  else
    match user_write env with
    | WriteValueError msg => (st, None, start_error msg)
    | Written =>
        match garment_stage env with
        | GarmentResolved =>
            (st, Some session_id,
             start_processing session_id (Some (user_image_data_url req)))
        | GarmentValueError msg => (st, None, start_error msg)
        | GarmentException _ => (st, None, start_processing session_id None)
        end
    end.

(** *** The service as a transition system *)

(** The tables together with the session ids of the background threads that
    have been started and have not yet written their result. The events are
    the two start calls that the provider of the routes uses, the end of a
    background job, a poll and the creation of a file in the outputs
    directory; [start_tryon_intimate_two_phase], which nothing calls, is left
    out. *)
Record System := mkSystem {
  store : Store;
  jobs : list string
}.

Inductive Event :=
  | Start (env : Env) (req : Request)
  | StartAdvanced (env : Env) (req : Request)
  | JobDone (session_id : string) (o : VendorOutcome)
  | Poll (session_id : string)
  | FileCreated (fname : string).

Fixpoint remove_first (x : string) (l : list string) : list string :=
  match l with
  | [] => []
  | y :: l' => if decide (x = y) then l' else y :: remove_first x l'
  end.

Definition spawn (js : list string) (j : option string) : list string :=
  match j with Some sid => js ++ [sid] | None => js end.

(** One step: the next system and the dictionary returned to the caller of a
    start or of a poll. A job can only finish when its thread is running. *)
Definition step (sys : System) (ev : Event) : option (System * option PyDict) :=
  match ev with
  | Start env req =>
      let '(st, j, resp) := start_tryon (store sys) env req in
      Some (mkSystem st (spawn (jobs sys) j), Some resp)
  | StartAdvanced env req =>
      let '(st, j, resp) := start_tryon_advanced (store sys) env req in
      Some (mkSystem st (spawn (jobs sys) j), Some resp)
  | JobDone sid o =>
      if decide (sid ∈ jobs sys)
      then Some (mkSystem (_bg_job (store sys) sid o) (remove_first sid (jobs sys)), None)
      else None
  | Poll sid =>
      let '(st, resp) := get_result (store sys) sid in
      Some (mkSystem st (jobs sys), Some resp)
  | FileCreated fname => Some (mkSystem (add_file (store sys) fname) (jobs sys), None)
  end.

(** A run and the answers given to its polls, oldest first. *)
Fixpoint run (sys : System) (evs : list Event)
    : option (System * list (string * PyDict)) :=
  match evs with
  | [] => Some (sys, [])
  | ev :: evs' =>
      match step sys ev with
      | Some (sys', resp) =>
          match run sys' evs' with
          | Some (sys'', tr) =>
              match ev, resp with
              | Poll sid, Some d => Some (sys'', (sid, d) :: tr)
              | _, _ => Some (sys'', tr)
              end
          | None => None
          end
      | None => None
      end
  end.

(** A fresh service: empty tables, no thread, and whatever files the outputs
    directory already holds. *)
Definition init (files : gset string) : System := mkSystem (mkStore ∅ ∅ files) [].

Definition reachable (sys : System) : Prop :=
  exists files evs tr, run (init files) evs = Some (sys, tr).


(** Whether an event writes the table entries of [sid]: a background job of
    that session finishing, or an advanced start that is given that session
    id and finds the Gemini client unavailable. *)
Definition writes_entry (ev : Event) (sid : string) : bool :=
  match ev with
  | JobDone sid' _ => bool_decide (sid' = sid)
  | StartAdvanced env _ =>
      negb (bool_decide (vendor env = "KlingAI"))
      && (negb (gemini_present env) || negb (gemini_client_on env))
      && bool_decide (new_session_id env = sid)
  | _ => false
  end.



End TryOn.

(** ** Concrete sessions *)

Module Scenario.
Import TryOn.

(** Two JPEG data URLs: [_write_data_url_to_file] decodes the base64 text and
    writes the bytes of a JPEG as they are when it cannot open them as an
    image. *)
Definition photo : string := "data:image/jpeg;base64,/9j/4AAQSkZJRg==".
Definition hairstyle : string := "data:image/jpeg;base64,/9j/4AAQSkZJRgAB".

(** A start with Gemini selected and working, at clock reading [t]. *)
Definition env_at (t : Z) : Env := mkEnv t "Gemini" true true true true Written GarmentResolved.

Definition request_a : Request := mkRequest photo (Some hairstyle) None.
Definition request_b : Request := mkRequest photo (Some hairstyle) (Some "shorter fringe").

Definition sid : string := "tryon_1700000000000".
Definition sid_file : string := "tryon_1700000000000.jpg".
Definition gen_path : string := "/static/outputs/gen_1700000004321.jpg".

(** The adapter produced an image. *)
Definition vendor_ok : VendorOutcome :=
  Returned (py_dict [("status", Some "ok"); ("mode", Some "simple");
                     ("output_path", Some gen_path); ("message", None)]).

(** The adapter returned no image and no message. *)
Definition vendor_failed : VendorOutcome :=
  Returned (py_dict [("status", Some "error"); ("mode", Some "no_image");
                     ("output_path", None); ("message", None)]).

(** Both tables hold an entry for [sid] and the file of the fallback exists. *)
Definition race_system : System :=
  mkSystem (mkStore {[sid := gen_path]} {[sid := "try-on failed"]} {[sid_file]}) [].

Definition race_events : list Event :=
  [Start (env_at 1700000000000) request_a; Start (env_at 1700000000000) request_b;
   JobDone sid vendor_ok; JobDone sid vendor_failed].

(** A recorded output next to a file named after the session. *)
Definition memo_system : System :=
  mkSystem (mkStore {[sid := gen_path]} ∅ {[sid_file]}) [].

Definition memo_events : list Event :=
  [Start (env_at 1700000000000) request_a; JobDone sid vendor_ok].

(** A later session. *)
Definition sid2 : string := "tryon_1700000000500".



(** After an error has been recorded for [sid]: a third request with the
    same clock reading succeeds, a file named after the session appears and
    the session is polled twice. *)
Definition absorbed_events : list Event :=
  [Start (env_at 1700000000000) request_a; JobDone sid vendor_ok;
   FileCreated sid_file; Poll sid; Poll sid2; Poll sid].

Definition absorbed_system : System :=
  mkSystem (mkStore {[sid := gen_path]} {[sid := "try-on failed"]} {[sid_file]}) [].

Definition absorbed_trace : list (string * PyDict) :=
  [(sid, error_result "try-on failed"); (sid2, pending_result);
   (sid, error_result "try-on failed")].

(** Gemini is selected but its service object is absent. *)
Definition env_no_gemini : Env :=
  mkEnv 1700000000000 "Gemini" true true false false Written GarmentResolved.

(** Gemini is selected and present, but its client is not initialised. *)
Definition env_no_client : Env :=
  mkEnv 1700000000000 "Gemini" true true true false Written GarmentResolved.

End Scenario.

(** ** [get_result], phase by phase *)

(** [TryOn.get_result] is a call that no other thread interrupts and whose
    file test answers. The source leaves the lock after the two table reads,
    tests the file outside the lock, and takes the lock again for the write
    of the file fallback; [Path.exists] answers [False] for a file that is
    not there and lets the other failures of the look-up through, so that a
    name the file system refuses (a component longer than it allows) raises
    [OSError], which [get_result] does not catch. This module has the three
    phases as separate steps and the file test with its three outcomes. *)

Module Calls.
Import TryOn.

(** What [candidate.exists()] comes to: [True], [False] or an [OSError]. *)
Inductive FileTest :=
  | Found
  | Missing
  | Refused.

(** The end of a call: the dictionary it returns, or the [OSError] that
    leaves it. *)
Inductive Outcome :=
  | Answer (d : PyDict)
  | OSError.

(** An unfinished call: it has left the locked block without an answer and
    has the file test before it, or it has found the file and has the write
    before it. *)
Inductive Stage :=
  | Testing
  | Writing.

(** The service and the calls of [get_result] that are under way, each with
    its session id. *)
Record Threads := mkThreads {
  service : System;
  in_flight : list (string * Stage)
}.

(** A start, the end of a job or a new file, as in [TryOn.step]; or one phase
    of a call of [get_result]. *)
Inductive Event :=
  | Other (ev : TryOn.Event)
  | Read (session_id : string)
  | Test (session_id : string)
  | Write (session_id : string).

Definition same_call (c1 c2 : string * Stage) : bool :=
  bool_decide (fst c1 = fst c2)
  && match snd c1, snd c2 with
     | Testing, Testing | Writing, Writing => true
     | _, _ => false
     end.

(** The calls under way without the first one equal to [c], when there is
    one. *)
Fixpoint take_call (c : string * Stage) (l : list (string * Stage))
    : option (list (string * Stage)) :=
  match l with
  | [] => None
  | c' :: l' =>
      if same_call c c' then Some l'
      else match take_call c l' with
           | Some rest => Some (c' :: rest)
           | None => None
           end
  end.

(** The test of the id and the locked block of [get_result]: the answer,
    when the call returns from there, and [None] when it leaves the lock
    without returning. *)
Definition read_tables (st : Store) (session_id : string) : option PyDict :=
  if negb (truthy session_id) then Some missing_result
  else
    match if_truthy (session_errors st !! session_id) with
    | Some err_msg => Some (error_result err_msg)
    | None =>
        match session_outputs st !! session_id with
        | Some out => Some (ok_result out)
        | None => None
        end
    end.

(** The write of the file fallback and its answer: the entry is assigned
    under the lock without reading the tables again. *)
Definition write_output (st : Store) (session_id : string) : Store * PyDict :=
  let fname := session_id +:+ ".jpg" in
  let pub := "/static/outputs/" +:+ fname in
  (set_output st session_id pub, ok_result pub).

Section FileSystem.

(** The names [f] for which the look-up of [self._outputs_dir / f] fails with
    an error other than the file not being there. *)
Variable refused : string -> bool.

(** [candidate.exists()] *)
Definition candidate_exists (st : Store) (fname : string) : FileTest :=
  if refused fname then Refused
  else if decide (fname ∈ outputs_dir st) then Found
  else Missing.

(** The file test of [get_result], outside the lock. *)
Definition test_file (st : Store) (session_id : string) : FileTest :=
  candidate_exists st (session_id +:+ ".jpg").

(** [TryOnService.get_result] as one call that nothing interrupts: the new
    store and how the call ends. *)
Definition get_result (st : Store) (session_id : string) : Store * Outcome :=
  match read_tables st session_id with
  | Some d => (st, Answer d)
  | None =>
      match test_file st session_id with
      | Refused => (st, OSError)
      | Missing => (st, Answer pending_result)
      | Found =>
          let '(st', d) := write_output st session_id in
          (st', Answer d)
      end
  end.

(** One step of the service with its threads: the next state and, when a
    call of [get_result] ends with this step, how it ends. A call is three
    steps, so a poll of [TryOn.step] is not a step here; a phase can only
    run for a call that is at that stage. *)
Definition step (t : Threads) (ev : Event) : option (Threads * option Outcome) :=
  match ev with
  | Other (Poll _) => None
  | Other ev' =>
      match TryOn.step (service t) ev' with
      | Some (sys, _) => Some (mkThreads sys (in_flight t), None)
      | None => None
      end
  | Read sid =>
      match read_tables (store (service t)) sid with
      | Some d => Some (t, Some (Answer d))
      | None => Some (mkThreads (service t) (in_flight t ++ [(sid, Testing)]), None)
      end
  | Test sid =>
      match take_call (sid, Testing) (in_flight t) with
      | None => None
      | Some rest =>
          match test_file (store (service t)) sid with
          | Refused => Some (mkThreads (service t) rest, Some OSError)
          | Missing => Some (mkThreads (service t) rest, Some (Answer pending_result))
          | Found => Some (mkThreads (service t) (rest ++ [(sid, Writing)]), None)
          end
      end
  | Write sid =>
      match take_call (sid, Writing) (in_flight t) with
      | None => None
      | Some rest =>
          let '(st, d) := write_output (store (service t)) sid in
          Some (mkThreads (mkSystem st (jobs (service t))) rest, Some (Answer d))
      end
  end.

(** A run and the ends of the calls of [get_result] in it, oldest first,
    each with the step at which the call ended. *)
Fixpoint run (t : Threads) (evs : list Event)
    : option (Threads * list (Event * Outcome)) :=
  match evs with
  | [] => Some (t, [])
  | ev :: evs' =>
      match step t ev with
      | Some (t', resp) =>
          match run t' evs' with
          | Some (t'', tr) =>
              match resp with
              | Some o => Some (t'', (ev, o) :: tr)
              | None => Some (t'', tr)
              end
          | None => None
          end
      | None => None
      end
  end.

End FileSystem.

(** Whether a step writes the table entries of [sid]: the steps of
    [TryOn.writes_entry], and the write phase of a call for [sid]. *)
Definition writes_entry (ev : Event) (sid : string) : bool :=
  match ev with
  | Other ev' => TryOn.writes_entry ev' sid
  | Write sid' => bool_decide (sid' = sid)
  | _ => false
  end.


(** The length of the longest component of a path. *)
Fixpoint longest_component (s : string) (cur best : nat) : nat :=
  match s with
  | EmptyString => Nat.max cur best
  | String c s' =>
      if Ascii.eqb c "/" then longest_component s' 0 (Nat.max cur best)
      else longest_component s' (S cur) best
  end.

(** The refusal of a file system whose names have at most [name_max] bytes
    (255 on the file systems in common use): a look-up fails with [OSError]
    (file name too long) when a component of the path is longer. The limit
    on the length of the whole path is left out. *)
Definition name_too_long (name_max : nat) (fname : string) : bool :=
  (name_max <? longest_component fname 0 0)%nat.

End Calls.

(** Calls of [get_result] that overlap with a job, and an id that is too
    long for a file name. *)
Module CallScenario.
Import TryOn Calls.


Definition file_path : string := "/static/outputs/tryon_1700000000000.jpg".


Definition overlap_end : Threads :=
  mkThreads (mkSystem (mkStore {[Scenario.sid := file_path]} ∅ {[Scenario.sid_file]}) []) [].








(** A call for [Scenario.sid] has found the file and has its write before
    it, and the job has recorded its output in the meantime. *)
Definition before_write : Threads :=
  mkThreads Scenario.memo_system [(Scenario.sid, Writing)].

(** A session id of 300 bytes. *)
Fixpoint repeat_char (n : nat) (c : ascii) : string :=
  match n with
  | O => EmptyString
  | S n' => String c (repeat_char n' c)
  end.

Definition long_sid : string := repeat_char 300 "a".

End CallScenario.

(** ** More Python string operations *)

(** [str(x)] for an optional string: [None] prints as the word None. *)
Definition py_str_opt (o : option string) : string :=
  match o with Some s => s | None => "None" end.

(** [c.lower()] on one ASCII character. *)
Definition ascii_lower (c : ascii) : ascii :=
  let n := N_of_ascii c in
  if ((65 <=? n) && (n <=? 90))%N then ascii_of_N (n + 32) else c.

(** [s.lower()] for ASCII text such as a model identifier. *)
Fixpoint lower (s : string) : string :=
  match s with
  | EmptyString => EmptyString
  | String c s' => String (ascii_lower c) (lower s')
  end.

(** [sub in s] *)
Fixpoint py_in (sub s : string) : bool :=
  String.prefix sub s ||
  match s with
  | EmptyString => false
  | String _ s' => py_in sub s'
  end.

(** ** The image try-on poller of [KlingAIService] *)

Module KlingAI.

(** The JSON body of a poll answered with HTTP 200: the status word under
    [data.task_status] and the rest of [data]. *)
Record TaskResult := mkTaskResult {
  task_status : option string;
  data : PyDict
}.

(** One answer of the polling endpoint. *)
Inductive PollReply :=
  | PollRaised
  | PollHttpError (code : Z)
  | PollBody (result : TaskResult).

(** What one turn of the polling loop decides. *)
Inductive Turn :=
  | Done (result : TaskResult)
  | Failed
  | StillProcessing.

(** The body of the [while] loop of [_poll_task_result]. *)
Definition poll_turn (r : PollReply) : Turn :=
  match r with
  | PollRaised => StillProcessing
  | PollHttpError _ => StillProcessing
  | PollBody result =>
      if bool_decide (task_status result ∈ [Some "completed"; Some "succeed"; Some "success"])
      then Done result
      else if bool_decide (task_status result ∈ [Some "failed"; Some "error"])
      then Failed
      else StillProcessing
  end.

(** [KlingAIService._poll_task_result]: [replies] are the answers received
    before the timeout, one per turn; [None] is a failed task or a timeout. *)
Fixpoint _poll_task_result (replies : list PollReply) : option TaskResult :=
  match replies with
  | [] => None
  | r :: replies' =>
      match poll_turn r with
      | Done result => Some result
      | Failed => None
      | StillProcessing => _poll_task_result replies'
      end
  end.

End KlingAI.

(** ** [KlingAIVideoService] *)

Module Video.

(** The settings of a service instance after [_reload_settings_if_changed]. *)
Record Service := mkService {
  access_key : option string;
  secret_key : option string;
  model : string;
  mode : string;
  requests_available : bool      (* the [requests] import succeeded *)
}.

(** Requests sent over the network. *)
Inductive HttpCall :=
  | PostImage2Video (payload : PyDict)
  | GetTask (task_id : string)
  | GetUrl (url : string).

(** The outside of the service: the requests sent so far, oldest first, and
    the files of the outputs directory with their contents. *)
Record World := mkWorld {
  calls : list HttpCall;
  files : gmap string string
}.

Definition send (w : World) (c : HttpCall) : World := mkWorld (calls w ++ [c]) (files w).

Definition write_file (w : World) (name content : string) : World :=
  mkWorld (calls w) (<[name := content]> (files w)).

Definition has_keys (svc : Service) : bool :=
  truthy_opt (access_key svc) && truthy_opt (secret_key svc).

(** *** Submission *)

(** Answer of the vendor to the submission. *)
Inductive PostReply :=
  | PostTimeout
  | PostRaised (text : string)                     (* f"{type(exc).__name__}: {exc}" *)
  | PostHttpError (code : Z) (body : option PyDict) (* body: response.json(), if it parses *)
  | PostBody (task_id : option string).            (* result.get("data", {}).get("task_id") *)

Record SubmitEnv := mkSubmitEnv {
  image_exists : bool;            (* Path(image_path).exists() *)
  image_base64 : option string;   (* self._image_to_base64(image_path) *)
  post_reply : PostReply
}.

Definition submit_result (status : string) (task_id : option string)
    (message : option string) : PyDict :=
  py_dict [("status", Some status); ("task_id", task_id); ("output_path", None);
           ("message", message)].

(** The JSON body of the submission. *)
Definition submit_payload (svc : Service) (image_b64 prompt : string) (duration : Z)
    : PyDict :=
  let payload := py_dict [("model_name", Some (model svc)); ("image", Some image_b64);
                          ("prompt", Some prompt); ("duration", Some (pretty duration))] in
  if negb (py_in "turbo" (lower (model svc)))
  then <["mode" := Some (mode svc)]> payload
  else payload.

(** [d.get(k, dflt)] for a dictionary of optional strings. *)
Definition dict_get_default (d : PyDict) (k : string) (dflt : string) : option string :=
  match d !! k with Some v => v | None => Some dflt end.

(** [KlingAIVideoService.generate_video] *)
Definition generate_video (svc : Service) (w : World) (env : SubmitEnv)
    (prompt : string) (duration : Z) : World * PyDict :=
  if negb (has_keys svc) then
    (w, submit_result "error" None (Some "KlingAI Video API keys not configured"))
  else if negb (requests_available svc) then
    (w, submit_result "error" None (Some "HTTP library not available"))
  else if negb (image_exists env) then
    (w, submit_result "error" None (Some "Source image not found"))
  else
    match if_truthy (image_base64 env) with
    | None => (w, submit_result "error" None (Some "Failed to process image"))
    | Some image_b64 =>
        let w' := send w (PostImage2Video (submit_payload svc image_b64 prompt duration)) in
        match post_reply env with
        | PostTimeout => (w', submit_result "error" None (Some "KlingAI Video API 請求超時"))
        | PostRaised text => (w', submit_result "error" None (Some text))
        | PostHttpError code body =>
            let error_msg := "KlingAI Video API error: " +:+ pretty code in
            match body with
            | Some error_data =>
                (w', submit_result "error" None (dict_get_default error_data "message" error_msg))
            | None => (w', submit_result "error" None (Some error_msg))
            end
        | PostBody task_id =>
            match if_truthy task_id with
            | None => (w', submit_result "error" None (Some "No task ID returned from API"))
            | Some tid =>
                (w', submit_result "processing" (Some tid) (Some "Video generation started"))
            end
        end
    end.

(** *** Polling *)

(** The [data] object of a poll answered with HTTP 200; [videos] holds the
    entries of [task_result.videos]. *)
Record TaskData := mkTaskData {
  task_status : option string;
  task_status_msg : option string;
  videos : list PyDict
}.

Inductive PollReply :=
  | PollRaised (text : string)
  | PollHttpError (code : Z) (body : option PyDict)
  | PollBody (data : TaskData).

Inductive DownloadReply :=
  | DownloadRaised (text : string)
  | DownloadHttp (code : Z) (content : string).

Definition poll_result (status : string) (output_path message : option string) : PyDict :=
  py_dict [("status", Some status); ("output_path", output_path); ("message", message)].

(** The URL of the first video, when there is one and it is not empty. *)
Definition first_video_url (vs : list PyDict) : option string :=
  match vs with
  | [] => None
  | v :: _ => if_truthy (dict_get v "url")
  end.

(** [KlingAIVideoService.poll_video_task]; [now_ms] is
    [int(time.time()*1000)] at the time of the download. *)
Definition poll_video_task (svc : Service) (w : World) (now_ms : Z) (task_id : string)
    (reply : PollReply) (dl : DownloadReply) : World * PyDict :=
  if negb (requests_available svc) then
    (w, poll_result "error" None (Some "HTTP library not available"))
  else if negb (has_keys svc) then
    (w, poll_result "error" None (Some "API keys not configured"))
  else
    let w1 := send w (GetTask task_id) in
    match reply with
    | PollRaised text => (w1, poll_result "error" None (Some text))
    | PollHttpError code body =>
        match body with
        | Some error_data =>
            (w1, poll_result "error" None (dict_get_default error_data "message" "Polling failed"))
        | None => (w1, poll_result "error" None (Some ("HTTP " +:+ pretty code)))
        end
    | PollBody data =>
        if bool_decide (task_status data ∈ [Some "succeed"; Some "success"]) then
          match first_video_url (videos data) with
          | Some video_url =>
              let output_filename := "video_" +:+ pretty now_ms +:+ ".mp4" in
              let public_path := "/static/outputs/" +:+ output_filename in
              let w2 := send w1 (GetUrl video_url) in
              match dl with
              | DownloadRaised text => (w2, poll_result "error" None (Some text))
              | DownloadHttp code content =>
                  if decide (code = 200) then
                    (write_file w2 output_filename content,
                     poll_result "completed" (Some public_path) None)
                  else
                    (w2, poll_result "error" None
                           (Some ("Failed to download video: HTTP " +:+ pretty code)))
              end
          | None => (w1, poll_result "error" None (Some "No video URL in response"))
          end
        else if bool_decide (task_status data ∈ [Some "failed"; Some "error"]) then
          (w1, poll_result "failed" None
                 (Some (py_or (task_status_msg data) "Video generation failed")))
        else if bool_decide (task_status data ∈ [Some "processing"; Some "submitted"; Some "pending"]) then
          (w1, poll_result "processing" None (Some "Video is being generated..."))
        else
          (w1, poll_result "unknown" None
                 (Some ("Unknown status: " +:+ py_str_opt (task_status data))))
    end.

(** The downloads among the requests sent. *)
Definition downloads (w : World) : list string :=
  omap (fun c => match c with GetUrl u => Some u | _ => None end) (calls w).

(** The submissions among the requests sent. *)
Definition submissions (w : World) : list PyDict :=
  omap (fun c => match c with PostImage2Video p => Some p | _ => None end) (calls w).

End Video.

(** ** The [/api/video/generate] route *)

Module Api.

(** The JSON body of the request, after [payload.get] with its defaults, for
    the bodies the page sends: [image_path] a string or absent, [prompt] a
    string and [duration] an integer that Python prints. Other JSON values
    (an [image_path] that is not a string, a [duration] that is not such an
    integer) are not covered. *)
Record VideoRequest := mkVideoRequest {
  image_path : option string;
  prompt : string;
  duration : Z
}.

(** [generate_video] of [routes/api.py]: the world, the JSON answer and the
    HTTP status. The resolved path is the one the service tests again, so
    both tests read [image_exists]. *)
Definition generate_video (svc : Video.Service) (w : Video.World) (env : Video.SubmitEnv)
    (req : VideoRequest) : Video.World * PyDict * Z :=
  match if_truthy (image_path req) with
  | None => (w, py_dict [("error", Some "請提供換髮型結果圖片路徑")], 400)
  | Some _ =>
      if negb (Video.image_exists env) then
        (w, py_dict [("error", Some "找不到換髮型結果圖片")], 404)
      else
        let '(w', result) := Video.generate_video svc w env (prompt req) (duration req) in
        if decide (dict_get result "status" = Some "error")
        then (w', py_dict [("error", Video.dict_get_default result "message" "影片生成失敗")], 500)
        else (w', result, 200)
  end.

End Api.

(** ** ROI boxes of [GeminiService] *)

Module ROI.

Section Boxes.

(** [round_times (n, d) x] stands for [int(round(c * x))] where the literal
    [c] is the decimal fraction [n/d]; Python evaluates it in binary floating
    point, which is left open here: any integer may come out. (For an [x]
    too large for a float the product raises; image sizes are far below.) *)
Variable round_times : Z * Z -> Z -> Z.

(** [GeminiService._compute_lower_body_roi] *)
Definition _compute_lower_body_roi (w h : Z) : Z * Z * Z * Z :=
  let left := round_times (15, 100) w in
  let right := round_times (85, 100) w in
  let top := round_times (45, 100) h in
  let bottom := round_times (92, 100) h in
  let left := Z.max 0 (Z.min left (w - 1)) in
  let right := Z.max (left + 1) (Z.min right w) in
  let top := Z.max 0 (Z.min top (h - 1)) in
  let bottom := Z.max (top + 1) (Z.min bottom h) in
  (left, top, right, bottom).

(** [GeminiService._compute_upper_body_roi] *)
Definition _compute_upper_body_roi (w h : Z) : Z * Z * Z * Z :=
  let left := round_times (1, 10) w in
  let right := round_times (9, 10) w in
  let top := round_times (5, 100) h in
  let bottom := round_times (55, 100) h in
  let left := Z.max 0 (Z.min left (w - 1)) in
  let right := Z.max (left + 1) (Z.min right w) in
  let top := Z.max 0 (Z.min top (h - 1)) in
  let bottom := Z.max (top + 1) (Z.min bottom h) in
  (left, top, right, bottom).

End Boxes.

(** Rounding of the exact product [n * x / d] to the nearest integer, ties to
    the even one. This is what the code computes when the exact product is
    not half way between two integers; where it is, as for 0.55 * 110, the
    floating-point product can lie on either side and the code can round the
    other way. It serves as an instance of [round_times] at the size 640 by
    480, where no product is half way. *)
Definition round_half_even_times (c : Z * Z) (x : Z) : Z :=
  let '(n, d) := c in
  let q := (n * x) / d in
  let r := (n * x) mod d in
  if (2 * r <? d)%Z then q
  else if (d <? 2 * r)%Z then q + 1
  else if Z.even q then q else q + 1.

(** The box lies in a [w] by [h] image and is at least one pixel wide and
    high. *)
Definition box_in_image (w h : Z) (box : Z * Z * Z * Z) : Prop :=
  let '(l, t, r, b) := box in
  0 <= l /\ l < r /\ r <= w /\ 0 <= t /\ t < b /\ b <= h.

End ROI.

(** ** Concrete video tasks *)

Module VideoScenario.
Import Video.

Definition svc : Service := mkService (Some "ak-demo") (Some "sk-demo") "kling-v1" "std" true.

Definition nothing_yet : World := mkWorld [] ∅.

Definition video_url : string := "https://cdn.klingai.com/videos/T1.mp4".

Definition one_video : list PyDict := [py_dict [("url", Some video_url); ("duration", Some "5")]].

(** The vendor reports task [T1] with the given status word and one video. *)
Definition reply_with (status : string) : PollReply :=
  PollBody (mkTaskData (Some status) None one_video).

Definition download_ok : DownloadReply := DownloadHttp 200 "mp4-bytes".

(** The world after a first poll has downloaded and written the video. *)
Definition polled_once : World :=
  mkWorld [GetTask "T1"; GetUrl video_url] {["video_1700000009000.mp4" := "mp4-bytes"]}.

(** A request for a seven-second video of an existing result image. *)
Definition seven_seconds : Api.VideoRequest :=
  Api.mkVideoRequest (Some "/static/outputs/gen_1700000004321.jpg") "turn the head slowly" 7.

Definition submit_env : SubmitEnv :=
  mkSubmitEnv true (Some "/9j/4AAQSkZJRg==") (PostBody (Some "T1")).

End VideoScenario.

(** ** What a background job has produced *)

Module Job.
Import TryOn.

(** The public path a job records: the [output_path] of a result whose
    status is [ok], when it is not empty. *)
Definition produced (o : VendorOutcome) : option string :=
  match o with
  | Returned res =>
      if decide (dict_get res "status" = Some "ok")
      then if_truthy (dict_get res "output_path")
      else None
  | Raised _ => None
  end.

(** All entries of both tables have a non-empty session id and a non-empty
    value. *)
Definition tables_nonempty (st : Store) : Prop :=
  (forall sid msg, session_errors st !! sid = Some msg -> sid <> "" /\ msg <> "") /\
  (forall sid out, session_outputs st !! sid = Some out -> sid <> "" /\ out <> "").

End Job.

(** ** The try-on history of [services/history_repository.py] *)

Module History.

(** The dataclass [TryOnRecord]. *)
Record TryOnRecord := mkRecord {
  record_id : string;
  timestamp : string;
  user_photo_path : string;
  garment_photo_path : string;
  result_photo_path : option string;
  video_path : option string;
  status : string;
  error_message : option string;
  garment_name : option string;
  garment_id : option string
}.

(** The repository is the JSON array of its data file, in file order;
    reading and writing the file are taken to succeed. *)

(** [add_record]; [new_id] is [str(uuid.uuid4())] and [now] the formatted
    [datetime.now()]. *)
Definition add_record (records : list TryOnRecord) (new_id now : string)
    (user_photo garment_photo : string) (result_photo video : option string)
    (st : string) (err name gid : option string) : list TryOnRecord * TryOnRecord :=
  let record := mkRecord new_id now user_photo garment_photo result_photo video st err
                         name gid in
  ((records ++ [record])%list, record).

(** The assignments that [update_record] makes on the record it found. *)
Definition merge (r : TryOnRecord) (result_photo video st err : option string)
    : TryOnRecord :=
  mkRecord (record_id r) (timestamp r) (user_photo_path r) (garment_photo_path r)
           (match result_photo with Some p => Some p | None => result_photo_path r end)
           (match video with Some v => Some v | None => video_path r end)
           (match st with Some s => s | None => status r end)
           (match err with Some e => Some e | None => error_message r end)
           (garment_name r) (garment_id r).

(** [update_record]: the first record with the id is updated in place. *)
Fixpoint update_record (records : list TryOnRecord) (id : string)
    (result_photo video st err : option string)
    : list TryOnRecord * option TryOnRecord :=
  match records with
  | [] => ([], None)
  | r :: rest =>
      if decide (record_id r = id) then
        (merge r result_photo video st err :: rest, Some (merge r result_photo video st err))
      else
        let '(rest', found) := update_record rest id result_photo video st err in
        (r :: rest', found)
  end.

(** [get_record] *)
Fixpoint get_record (records : list TryOnRecord) (id : string) : option TryOnRecord :=
  match records with
  | [] => None
  | r :: rest => if decide (record_id r = id) then Some r else get_record rest id
  end.

(** [count_records] *)
Definition count_records (records : list TryOnRecord) : Z := Z.of_nat (length records).

(** [delete_record]: the records kept and whether any was removed. *)
Definition delete_record (records : list TryOnRecord) (id : string)
    : list TryOnRecord * bool :=
  let kept := filter (fun r => record_id r <> id) records in
  if (length kept <? length records)%nat then (kept, true) else (records, false).

(** Where [l[i:...]] starts or stops for an index [i] and a list of length
    [len]: a negative index counts from the end, and both ends are clipped. *)
Definition slice_index (len i : Z) : Z :=
  if (i <? 0)%Z then Z.max 0 (i + len) else Z.min i len.

(** [l[start:stop]] *)
Definition py_slice {A} (l : list A) (start stop : Z) : list A :=
  let len := Z.of_nat (length l) in
  let a := slice_index len start in
  let b := slice_index len stop in
  take (Z.to_nat (b - a)) (drop (Z.to_nat a) l).

(** [l[start:]] *)
Definition py_slice_from {A} (l : list A) (start : Z) : list A :=
  drop (Z.to_nat (slice_index (Z.of_nat (length l)) start)) l.

(** Insertion of a record before the first one whose timestamp is not
    greater than its own. *)
Fixpoint insert_desc (r : TryOnRecord) (l : list TryOnRecord) : list TryOnRecord :=
  match l with
  | [] => [r]
  | y :: l' =>
      if String.ltb (timestamp r) (timestamp y) then y :: insert_desc r l'
      else r :: y :: l'
  end.

(** [records.sort(key=timestamp, reverse=True)]: descending, and records with
    equal timestamps keep their order. *)
Definition sort_desc (l : list TryOnRecord) : list TryOnRecord := foldr insert_desc [] l.

(** [list_records] *)
Definition list_records (records : list TryOnRecord) (limit : option Z) (offset : Z)
    : list TryOnRecord :=
  let sorted := sort_desc records in
  match limit with
  | Some n => py_slice sorted offset (offset + n)
  | None => py_slice_from sorted offset
  end.

End History.

(** ** The polling and history routes of [routes/api.py] *)

Module Routes.
Import TryOn History.

(** The Flask session of the browser: string keys and string values. *)
Abbreviation Session := (gmap string string).

(** What the making of the comparison image came to: it failed before the
    [before_url] was set, it failed after, or both URLs were set. *)
Inductive Comparison :=
  | NoUrls
  | BeforeOnly (before_url : string)
  | BothUrls (before_url comparison_url : string).

(** [poll_try_on]: the tables, the history, the JSON answer and the HTTP
    status. *)
Definition poll_try_on (st : Store) (session : Session) (records : list TryOnRecord)
    (cmp : Comparison) (session_id : string)
    : Store * list TryOnRecord * PyDict * Z :=
  let '(st', status) := get_result st session_id in
  let '(records', status') :=
    match if_truthy (session !! ("record_id_" +:+ session_id)) with
    | Some rid =>
        if decide (dict_get status "status" = Some "ok") then
          match if_truthy (dict_get status "output") with
          | Some output =>
              let status1 := <["result_url" := Some output]> status in
              let status2 :=
                match if_truthy (session !! "user_photo_path") with
                | Some _ =>
                    match cmp with
                    | NoUrls => status1
                    | BeforeOnly b => <["before_url" := Some b]> status1
                    | BothUrls b c =>
                        <["comparison_url" := Some c]> (<["before_url" := Some b]> status1)
                    end
                | None => status1
                end in
              (fst (update_record records rid (Some output) None (Some "success") None),
               status2)
          | None => (records, status)
          end
        else if decide (dict_get status "status" = Some "error") then
          (fst (update_record records rid None None (Some "failed")
                  (Video.dict_get_default status "message" "換髮型失敗")),
           status)
        else (records, status)
    | None => (records, status)
    end in
  (st', records', status',
   if decide (dict_get status' "status" = Some "error") then 500 else 200).

(** What the browser gets: the JSON body with its HTTP status, or the
    answer of Flask to an exception that leaves the route (500, Internal
    Server Error). *)
Inductive Reply :=
  | Json (body : PyDict) (code : Z)
  | Unhandled.

(** [poll_try_on] with the file test of [get_result] as the file system
    has it: the route calls [check_session] outside any [try], so an
    [OSError] of the file test leaves the route and nothing after the call
    runs; a call that returns goes on as in [poll_try_on]. *)
Definition poll_try_on_call (refused : string -> bool) (st : Store) (session : Session)
    (records : list TryOnRecord) (cmp : Comparison) (session_id : string)
    : Store * list TryOnRecord * Reply :=
  match Calls.get_result refused st session_id with
  | (st', Calls.OSError) => (st', records, Unhandled)
  | (_, Calls.Answer _) =>
      let '(st', records', body, code) := poll_try_on st session records cmp session_id in
      (st', records', Json body code)
  end.

(** [poll_video]: the world, the history and the JSON answer. *)
Definition poll_video (svc : Video.Service) (w : Video.World) (now_ms : Z)
    (session : Session) (records : list TryOnRecord) (task_id : string)
    (reply : Video.PollReply) (dl : Video.DownloadReply)
    : Video.World * list TryOnRecord * PyDict :=
  let '(w', result) := Video.poll_video_task svc w now_ms task_id reply dl in
  let records' :=
    if decide (dict_get result "status" = Some "completed") then
      match if_truthy (dict_get result "video_url") with
      | Some video_url =>
          match if_truthy (session !! "last_tryon_session") with
          | Some session_id =>
              match if_truthy (session !! ("record_id_" +:+ session_id)) with
              | Some rid => fst (update_record records rid None (Some video_url) None None)
              | None => records
              end
          | None => records
          end
      | None => records
      end
    else records in
  (w', records', result).

(** The answer of [list_history] for a logged-in administrator. *)
Record HistoryPage := mkHistoryPage {
  page_records : list TryOnRecord;
  total : Z;
  page : Z;
  per_page : Z;
  total_pages : Z
}.

Inductive HistoryAnswer :=
  | Unauthorized                 (* 401 *)
  | DivisionByZero               (* the floor division raises *)
  | Listed (p : HistoryPage).

(** [list_history]; [page] and [per_page] are the integers read from the
    query string. *)
Definition list_history (admin : bool) (records : list TryOnRecord) (page per_page : Z)
    : HistoryAnswer :=
  if negb admin then Unauthorized
  else
    let offset := (page - 1) * per_page in
    let listed := list_records records (Some per_page) offset in
    let total := count_records records in
    if (0 <? total)%Z then
      if decide (per_page = 0) then DivisionByZero
      else Listed (mkHistoryPage listed total page per_page
                                 ((total + per_page - 1) / per_page))
    else Listed (mkHistoryPage listed total page per_page 0).

End Routes.

(** ** Settings of [KlingAIVideoService] and their reload *)

Module Settings.

(** The attributes of a service instance that the settings file feeds. The
    modification times are [st_mtime] values in any fixed unit. *)
Record VideoSettings := mkSettings {
  access_key : option string;
  secret_key : option string;
  model : string;
  mode : string;
  duration : Z;
  settings_path : option string;
  settings_mtime : option Z
}.

(** The value under [KLINGAI_VIDEO_DURATION] as [int(x or self.duration)]
    sees it: absent or false, a value that [int] rejects, or a value that
    [int] turns into [n]. *)
Inductive DurationValue :=
  | DurationAbsent
  | DurationInvalid
  | DurationInt (n : Z).

(** The five keys of the JSON object that the service reads. *)
Record FileData := mkFileData {
  f_access_key : option string;
  f_secret_key : option string;
  f_model : option string;
  f_mode : option string;
  f_duration : DurationValue
}.

(** What [json.loads] makes of the file: an object, or anything else (text
    that does not parse, or a value without [get]). *)
Inductive FileContent :=
  | NotAnObject
  | Object (data : FileData).

Record SettingsFile := mkSettingsFile {
  mtime : Z;
  content : FileContent
}.

(** [x or old] for an optional value of the file and an optional attribute. *)
Definition or_opt (x old : option string) : option string :=
  match if_truthy x with Some v => Some v | None => old end.

(** Truth value of the recorded modification time. *)
Definition mtime_known (m : option Z) : bool :=
  match m with Some t => negb (t =? 0)%Z | None => false end.

(** [KlingAIVideoService._reload_settings_if_changed]; [fs] gives the file
    at a path, if it exists. Every exception is swallowed, so a failure
    leaves the assignments made before it. *)
Definition _reload_settings_if_changed (s : VideoSettings)
    (fs : string -> option SettingsFile) : VideoSettings :=
  match if_truthy (settings_path s) with
  | None => s
  | Some path =>
      match fs path with
      | None => s
      | Some file =>
          if mtime_known (settings_mtime s)
             && (mtime file <=? default 0 (settings_mtime s))%Z
          then s
          else
            match content file with
            | NotAnObject => s
            | Object data =>
                let access_key' := or_opt (f_access_key data) (access_key s) in
                let secret_key' := or_opt (f_secret_key data) (secret_key s) in
                let model' := py_or (f_model data) (model s) in
                let mode' := py_or (f_mode data) (mode s) in
                match f_duration data with
                | DurationInvalid =>
                    mkSettings access_key' secret_key' model' mode' (duration s)
                               (settings_path s) (settings_mtime s)
                | DurationAbsent =>
                    mkSettings access_key' secret_key' model' mode' (duration s)
                               (settings_path s) (Some (mtime file))
                | DurationInt n =>
                    mkSettings access_key' secret_key' model' mode' n
                               (settings_path s) (Some (mtime file))
                end
            end
      end
  end.

(** The credentials test made by [generate_video] and [poll_video_task]. *)
Definition has_keys (s : VideoSettings) : bool :=
  truthy_opt (access_key s) && truthy_opt (secret_key s).

(** The service that [generate_video] works with after its reload. *)
Definition to_service (s : VideoSettings) (requests_available : bool) : Video.Service :=
  Video.mkService (access_key s) (secret_key s) (model s) (mode s) requests_available.

End Settings.

(** ** Public URLs of files, [TryOnService._to_web_url] *)

Module WebUrl.

(** [s[n:]] *)
Fixpoint string_drop (n : nat) (s : string) : string :=
  match n, s with
  | O, _ => s
  | S n', String _ s' => string_drop n' s'
  | S _, EmptyString => EmptyString
  end.

(** The text after the last occurrence of a non-empty [sep] in [s], when
    [sep] occurs in [s]. *)
Fixpoint after_last (sep s : string) : option string :=
  match s with
  | EmptyString => None
  | String _ s' =>
      match after_last sep s' with
      | Some t => Some t
      | None =>
          if String.prefix sep s then Some (string_drop (String.length sep) s) else None
      end
  end.

(** The third component of [s.rpartition(sep)]: the text after the last
    occurrence of [sep], and the whole of [s] when [sep] does not occur. *)
Definition rpartition_tail (sep s : string) : string := default s (after_last sep s).

Section ToWebUrl.

(** [Path(p).name], the last component of a path. *)
Variable path_name : string -> string.

(** [TryOnService._to_web_url] on a [str] or [None], where [os.path.sep] is
    the slash, so that [tail.replace(os.path.sep, '/')] is [tail]. *)
Definition _to_web_url (abs_path : option string) : option string :=
  match if_truthy abs_path with
  | None => None
  | Some abs_path_str =>
      let tail := rpartition_tail "/static/" abs_path_str in
      if truthy tail then Some ("/static/" +:+ tail)
      else Some (path_name abs_path_str)
  end.

End ToWebUrl.

End WebUrl.

(** ** The garment repository and the start route *)

Module Garments.

(** The dataclass [Garment]. *)
Record Garment := mkGarment {
  garment_id : string;
  name : string;
  category : string;
  description : string;
  image_path : string
}.

(** [GarmentRepository.get_garment] over the items of the data file: the
    first item with the id. *)
Fixpoint get_garment (garments : list Garment) (id : string) : option Garment :=
  match garments with
  | [] => None
  | item :: rest =>
      if decide (garment_id item = id) then Some item else get_garment rest id
  end.

End Garments.

Module StartRoute.
Import TryOn History Routes.

(** [PhotoService.encode_as_data_url]; [files p] is the base64 text of the
    file at path [p] when it exists. The left side is the message of the
    [FileNotFoundError]. *)
Definition encode_as_data_url (files : string -> option string) (file_path : string)
    : string + string :=
  match files file_path with
  | None => inl "指定的圖片不存在，請重新上傳。"
  | Some b64 => inr ("data:image/jpeg;base64," +:+ b64)
  end.

(** What the route reads of the dictionary of [validate_photo]: the truth
    value of [get("is_valid", False)] and the message, when there is one. *)
Record Validation := mkValidation {
  is_valid : bool;
  v_message : option string
}.

(** [session[key] = value]. A [None] is kept as an absent key: the routes
    read the session with [get], [pop] and [setdefault] only, which do not
    tell the two apart. *)
Definition session_set (key : string) (value : option string) (s : Session) : Session :=
  match value with
  | Some v => <[key := v]> s
  | None => delete key s
  end.

(** The HTTP answer: [{"error": ...}] with its status code, or the result of
    the provider with status 200. *)
Inductive Answer :=
  | Failure (code : Z) (error : option string)
  | Accepted (result : PyDict).

Section Start.

(** [str(Path(demo_root) / image_path)] *)
Variable demo_path : string -> string.

(** [start_try_on]. [garment_id] and [note] are the stripped strings read
    from the payload, [validation] what [validate_photo] answers for the
    encoded photo, [new_id] and [now] the identifier and the time stamp that
    [add_record] draws. The provider passes the request on to
    [start_tryon_advanced]. The result is the session tables, the session id
    of the thread that was started, the browser session, the history and the
    answer. *)
Definition start_try_on (st : Store) (env : Env) (session : Session)
    (records : list TryOnRecord) (garments : list Garments.Garment)
    (files : string -> option string) (garment_id note : string)
    (validation : Validation) (new_id now : string)
    : Store * option string * Session * list TryOnRecord * Answer :=
  match if_truthy (session !! "user_photo_path") with
  | None => (st, None, session, records, Failure 400 (Some "請先拍攝或選擇個人照片。"))
  | Some user_photo_path =>
      match Garments.get_garment garments garment_id with
      | None =>
          (st, None, session, records,
           Failure 404 (Some "找不到選擇的髮型，請重新載入。"))
      | Some garment =>
          match encode_as_data_url files user_photo_path with
          | inl exc => (st, None, session, records, Failure 404 (Some exc))
          | inr user_data_url =>
              let garment_path := demo_path (Garments.image_path garment) in
              match encode_as_data_url files garment_path with
              | inl exc => (st, None, session, records, Failure 404 (Some exc))
              | inr garment_data_url =>
                  if negb (is_valid validation) then
                    let error_message :=
                      default "照片不符合要求，請使用正面半身照。" (v_message validation) in
                    (st, None, session,
                     fst (add_record records new_id now user_photo_path garment_path
                            None None "failed"
                            (Some ("照片驗證失敗：" +:+ error_message))
                            (Some (Garments.name garment)) (Some garment_id)),
                     Failure 400 (Some error_message))
                  else
                    let '(st', job, result) :=
                      start_tryon_advanced st env
                        (mkRequest user_data_url (Some garment_data_url)
                                   (if_truthy (Some note))) in
                    if decide (dict_get result "status" = Some "error") then
                      let message :=
                        Video.dict_get_default result "message"
                                               "換髮型服務目前無法使用。" in
                      (st', job, session,
                       fst (add_record records new_id now user_photo_path garment_path
                              None None "failed" message
                              (Some (Garments.name garment)) (Some garment_id)),
                       Failure 500 message)
                    else
                      let session_id := dict_get result "session_id" in
                      let '(records', record) :=
                        add_record records new_id now user_photo_path garment_path
                          None None "processing" None
                          (Some (Garments.name garment)) (Some garment_id) in
                      (st', job,
                       <["record_id_" +:+ py_str_opt session_id := record_id record]>
                         (session_set "last_tryon_session" session_id session),
                       records', Accepted result)
              end
          end
      end
  end.

End Start.

End StartRoute.

(** A visitor with a photo who picks a hairstyle. *)
Module StartScenario.
Import TryOn History StartRoute.

Definition demo_path (p : string) : string := "/srv/demo/" +:+ p.

Definition bob : Garments.Garment :=
  Garments.mkGarment "g1" "Bob" "short" "chin length" "static/garments/bob.jpg".

Definition files (p : string) : option string :=
  if decide (p = "/srv/demo/static/uploads/user_1.jpg") then Some "/9j/4AAQSkZJRg=="
  else if decide (p = "/srv/demo/static/garments/bob.jpg") then Some "/9j/4AAQSkZJRgAB"
  else None.

Definition visitor : Routes.Session :=
  {["user_photo_path" := "/srv/demo/static/uploads/user_1.jpg"]}.

Definition valid : Validation := mkValidation true (Some "照片符合要求，可以進行試換髮型。").

Definition record_id_1 : string := "0b9f4c1e-7a52-4d0e-9c36-5f1a2e8d4b70".

End StartScenario.

(** * Properties *)

(** ** Truth values and dictionary literals *)

Lemma truthy_true (s : string) : truthy s = true <-> s <> "".
Proof. unfold truthy. destruct (decide (s = "")); split; congruence. Qed.

Lemma truthy_false (s : string) : truthy s = false <-> s = "".
Proof.
  unfold truthy. destruct (decide (s = "")); split; congruence.
Qed.

Lemma if_truthy_Some (o : option string) (s : string) :
  if_truthy o = Some s <-> o = Some s /\ s <> "".
Proof.
  unfold if_truthy. destruct o as [x|]; [|split; [discriminate|intros [? _]; discriminate]].
  destruct (truthy x) eqn:E.
  - apply truthy_true in E. split.
    + intros [= ->]. now split.
    + intros [[= ->] _]. reflexivity.
  - apply truthy_false in E. subst x. split; [discriminate|].
    intros [[= <-] H]. now destruct H.
Qed.

Lemma if_truthy_None (o : option string) :
  if_truthy o = None <-> o = None \/ o = Some "".
Proof.
  unfold if_truthy. destruct o as [x|]; [|split; auto].
  destruct (truthy x) eqn:E.
  - apply truthy_true in E. split; [discriminate|].
    intros [?|[= ->]]; [discriminate|now destruct E].
  - apply truthy_false in E. subst x. split; auto.
Qed.

Lemma py_or_nonempty (a : option string) (b : string) : b <> "" -> py_or a b <> "".
Proof.
  intros Hb. unfold py_or. destruct a as [s|]; [|exact Hb].
  destruct (truthy s) eqn:E; [now apply truthy_true|exact Hb].
Qed.

Lemma append_nonempty (a b : string) : a <> "" -> a +:+ b <> "".
Proof. destruct a; [congruence|discriminate]. Qed.

(** ** Facts about [TryOnService] *)

Module TryOnFacts.
Import TryOn.

(** *** The returned dictionaries *)

Lemma status_error_result msg : status_of (error_result msg) = Some "error".
Proof. reflexivity. Qed.

Lemma status_ok_result out : status_of (ok_result out) = Some "ok".
Proof. reflexivity. Qed.

Lemma status_pending_result : status_of pending_result = Some "pending".
Proof. reflexivity. Qed.

Lemma status_missing_result : status_of missing_result = Some "error".
Proof. reflexivity. Qed.

Lemma error_result_inj m1 m2 : error_result m1 = error_result m2 -> m1 = m2.
Proof.
  intros H. assert (E : dict_get (error_result m1) "message" = dict_get (error_result m2) "message")
    by now rewrite H.
  now injection E.
Qed.


(** *** The four ways out of [get_result] *)

Lemma get_result_missing st : get_result st "" = (st, missing_result).
Proof. reflexivity. Qed.

Lemma get_result_error st sid msg :
  sid <> "" -> session_errors st !! sid = Some msg -> msg <> "" ->
  get_result st sid = (st, error_result msg).
Proof.
  intros Hsid Hl Hmsg. unfold get_result.
  apply truthy_true in Hsid. rewrite Hsid. simpl.
  assert (E : if_truthy (session_errors st !! sid) = Some msg) by now apply if_truthy_Some.
  now rewrite E.
Qed.

Lemma get_result_memo st sid out :
  sid <> "" -> if_truthy (session_errors st !! sid) = None ->
  session_outputs st !! sid = Some out ->
  get_result st sid = (st, ok_result out).
Proof.
  intros Hsid He Ho. unfold get_result.
  apply truthy_true in Hsid. rewrite Hsid. simpl. now rewrite He, Ho.
Qed.

Lemma get_result_file st sid :
  sid <> "" -> if_truthy (session_errors st !! sid) = None ->
  session_outputs st !! sid = None -> sid +:+ ".jpg" ∈ outputs_dir st ->
  get_result st sid =
    (set_output st sid ("/static/outputs/" +:+ (sid +:+ ".jpg")),
     ok_result ("/static/outputs/" +:+ (sid +:+ ".jpg"))).
Proof.
  intros Hsid He Ho Hf. unfold get_result.
  apply truthy_true in Hsid. rewrite Hsid. simpl. rewrite He, Ho.
  now destruct (decide (sid +:+ ".jpg" ∈ outputs_dir st)).
Qed.

Lemma get_result_pending st sid :
  sid <> "" -> if_truthy (session_errors st !! sid) = None ->
  session_outputs st !! sid = None -> sid +:+ ".jpg" ∉ outputs_dir st ->
  get_result st sid = (st, pending_result).
Proof.
  intros Hsid He Ho Hf. unfold get_result.
  apply truthy_true in Hsid. rewrite Hsid. simpl. rewrite He, Ho.
  now destruct (decide (sid +:+ ".jpg" ∈ outputs_dir st)).
Qed.

(** Every answer is one of the four dictionaries. *)
Lemma get_result_cases st sid :
  (sid = "" /\ get_result st sid = (st, missing_result)) \/
  (sid <> "" /\ exists msg, if_truthy (session_errors st !! sid) = Some msg /\
      get_result st sid = (st, error_result msg)) \/
  (sid <> "" /\ if_truthy (session_errors st !! sid) = None /\
      exists out, session_outputs st !! sid = Some out /\
      get_result st sid = (st, ok_result out)) \/
  (sid <> "" /\ if_truthy (session_errors st !! sid) = None /\
      session_outputs st !! sid = None /\ sid +:+ ".jpg" ∈ outputs_dir st /\
      get_result st sid =
        (set_output st sid ("/static/outputs/" +:+ (sid +:+ ".jpg")),
         ok_result ("/static/outputs/" +:+ (sid +:+ ".jpg")))) \/
  (sid <> "" /\ if_truthy (session_errors st !! sid) = None /\
      session_outputs st !! sid = None /\ (sid +:+ ".jpg" ∉ outputs_dir st) /\
      get_result st sid = (st, pending_result)).
Proof.
  destruct (decide (sid = "")) as [->|Hsid]; [left; split; reflexivity|right].
  destruct (if_truthy (session_errors st !! sid)) as [msg|] eqn:He.
  { left. split; [assumption|]. exists msg. split; [reflexivity|].
    apply if_truthy_Some in He as [? ?]. now apply get_result_error. }
  right. destruct (session_outputs st !! sid) as [out|] eqn:Ho.
  { left. split; [assumption|]. split; [reflexivity|]. exists out. split; [reflexivity|].
    now apply get_result_memo. }
  right. destruct (decide (sid +:+ ".jpg" ∈ outputs_dir st)) as [Hf|Hf].
  - left. repeat (split; [first [assumption | reflexivity]|]). now apply get_result_file.
  - right. repeat (split; [first [assumption | reflexivity]|]). now apply get_result_pending.
Qed.


(** *** What the steps of the service preserve *)

(** Keys of the error table and running jobs are non-empty session ids, and
    recorded messages are non-empty. *)
Definition well_formed (sys : System) : Prop :=
  (forall sid msg, session_errors (store sys) !! sid = Some msg -> sid <> "" /\ msg <> "") /\
  (forall sid, sid ∈ jobs sys -> sid <> "").

Lemma new_session_id_nonempty env : new_session_id env <> "".
Proof. unfold new_session_id. apply append_nonempty. discriminate. Qed.

Lemma start_klingai_spec st env sid req st' j resp :
  _start_tryon_klingai st env sid req = (st', j, resp) ->
  st' = st /\ (j = None \/ j = Some sid).
Proof.
  unfold _start_tryon_klingai. intros H.
  repeat match type of H with
         | (if ?b then _ else _) = _ => destruct b
         | match ?x with _ => _ end = _ => destruct x
         end; injection H as <- <- <-; auto.
Qed.

Lemma start_gemini_spec st env sid req st' j resp :
  _start_tryon_gemini st env sid req = (st', j, resp) ->
  st' = st /\ (j = None \/ j = Some sid).
Proof.
  unfold _start_tryon_gemini. intros H.
  repeat match type of H with
         | (if ?b then _ else _) = _ => destruct b
         | match ?x with _ => _ end = _ => destruct x
         end; injection H as <- <- <-; auto.
Qed.

Lemma start_tryon_spec st env req st' j resp :
  start_tryon st env req = (st', j, resp) ->
  st' = st /\ (j = None \/ j = Some (new_session_id env)).
Proof.
  unfold start_tryon. destruct (decide (vendor env = "KlingAI")).
  - apply start_klingai_spec.
  - apply start_gemini_spec.
Qed.

Lemma start_tryon_advanced_spec st env req st' j resp :
  start_tryon_advanced st env req = (st', j, resp) ->
  (st' = st \/
   (vendor env <> "KlingAI" /\
    negb (gemini_present env) || negb (gemini_client_on env) = true /\
    st' = set_error st (new_session_id env) "Gemini client unavailable")) /\
  (j = None \/ j = Some (new_session_id env)).
Proof.
  unfold start_tryon_advanced. destruct (decide (vendor env = "KlingAI")) as [|Hv].
  { intros H. apply start_klingai_spec in H as [-> ?]. auto. }
  destruct (negb (gemini_present env) || negb (gemini_client_on env)) eqn:Hg.
  { intros [= <- <- <-]. auto. }
  intros H.
  repeat match type of H with
         | (if ?b then _ else _) = _ => destruct b
         | match ?x with _ => _ end = _ => destruct x
         end; injection H as <- <- <-; auto.
Qed.

Lemma bg_job_spec st sid o :
  (exists out, out <> "" /\ _bg_job st sid o = set_output st sid out) \/
  (exists msg, msg <> "" /\ _bg_job st sid o = set_error st sid msg).
Proof.
  destruct o as [res|name]; simpl.
  - destruct (if_truthy (dict_get res "output_path")) as [out|] eqn:E.
    + destruct (decide (dict_get res "status" = Some "ok")).
      * left. exists out. split; [|reflexivity]. now apply if_truthy_Some in E.
      * right. eexists. split; [|reflexivity]. now apply py_or_nonempty.
    + right. eexists. split; [|reflexivity]. now apply py_or_nonempty.
  - right. eexists. split; [|reflexivity]. now apply append_nonempty.
Qed.

Lemma elem_of_remove_first x y l : x ∈ remove_first y l -> x ∈ l.
Proof.
  induction l as [|z l IH]; simpl; [easy|].
  destruct (decide (y = z)); rewrite ?elem_of_cons; intuition.
Qed.

Lemma elem_of_spawn x js j : x ∈ spawn js j -> x ∈ js \/ j = Some x.
Proof.
  destruct j as [s|]; simpl; [|auto].
  rewrite elem_of_app, list_elem_of_singleton. intros [?| ->]; auto.
Qed.

Lemma well_formed_set_error st js sid msg :
  well_formed (mkSystem st js) -> sid <> "" -> msg <> "" ->
  forall js', (forall s, s ∈ js' -> s <> "") ->
  well_formed (mkSystem (set_error st sid msg) js').
Proof.
  intros [He _] Hsid Hmsg js' Hjs. split; [|exact Hjs].
  simpl. intros s m. destruct (decide (sid = s)) as [<-|Hne].
  - rewrite lookup_insert_eq. intros [= <-]. now split.
  - rewrite lookup_insert_ne by assumption. apply He.
Qed.

Lemma well_formed_step sys ev sys' resp :
  well_formed sys -> step sys ev = Some (sys', resp) -> well_formed sys'.
Proof.
  intros Hwf. destruct sys as [st js]. destruct ev as [env req|env req|sid o|sid|fname]; simpl.
  - destruct (start_tryon st env req) as [[st' j] r] eqn:E. intros [= <- <-].
    apply start_tryon_spec in E as [-> Hj]. destruct Hwf as [He Hjs]. split; [exact He|].
    simpl. intros s Hs. apply elem_of_spawn in Hs as [Hs|Hs]; [now apply Hjs|].
    destruct Hj as [-> | ->]; [discriminate|]. injection Hs as <-. apply new_session_id_nonempty.
  - destruct (start_tryon_advanced st env req) as [[st' j] r] eqn:E. intros [= <- <-].
    apply start_tryon_advanced_spec in E as [Hst Hj].
    assert (Hjs' : forall s, s ∈ spawn js j -> s <> "").
    { intros s Hs. apply elem_of_spawn in Hs as [Hs|Hs]; [now apply Hwf|].
      destruct Hj as [-> | ->]; [discriminate|]. injection Hs as <-.
      apply new_session_id_nonempty. }
    destruct Hst as [-> | (_ & _ & ->)].
    + split; [apply Hwf|exact Hjs'].
    + apply (well_formed_set_error st js); auto using new_session_id_nonempty.
  - destruct (decide (sid ∈ js)) as [Hin|]; [|discriminate]. intros [= <- <-].
    assert (Hsid : sid <> "") by now apply Hwf.
    assert (Hjs' : forall s, s ∈ remove_first sid js -> s <> "").
    { intros s Hs. apply elem_of_remove_first in Hs. now apply Hwf. }
    destruct (bg_job_spec st sid o) as [(out & _ & ->)|(msg & Hmsg & ->)].
    + split; [apply Hwf|exact Hjs'].
    + now apply (well_formed_set_error st js).
  - destruct (get_result st sid) as [st' r] eqn:E. intros [= <- <-].
    destruct (get_result_cases st sid) as
      [[_ H]|[(_ & ? & _ & H)|[(_ & _ & ? & _ & H)|[(_ & _ & _ & _ & H)|(_ & _ & _ & _ & H)]]]];
      rewrite H in E; injection E as <- <-; split; apply Hwf.
  - intros [= <- <-]. split; apply Hwf.
Qed.

Lemma well_formed_run evs : forall sys sys' tr,
  well_formed sys -> run sys evs = Some (sys', tr) -> well_formed sys'.
Proof.
  induction evs as [|ev evs IH]; simpl; intros sys sys' tr Hwf H.
  - now injection H as <- <-.
  - destruct (step sys ev) as [[sys1 resp]|] eqn:E1; [|discriminate].
    destruct (run sys1 evs) as [[sys2 tr2]|] eqn:E2; [|discriminate].
    assert (sys2 = sys') as <- by (destruct ev, resp; now injection H).
    eapply IH; [|exact E2]. eapply well_formed_step; eassumption.
Qed.

Lemma well_formed_init files : well_formed (init files).
Proof.
  split; simpl.
  - intros sid msg. rewrite lookup_empty. discriminate.
  - intros sid Hin. now apply elem_of_nil in Hin.
Qed.

Lemma reachable_well_formed sys : reachable sys -> well_formed sys.
Proof.
  intros (files & evs & tr & H). eapply well_formed_run; [apply well_formed_init|exact H].
Qed.


(** *** Error precedence *)

(** C1. In every state the service can reach, a session with a recorded
    error message is answered with status [error] and that message, and the
    call writes nothing, whatever the success table and the outputs directory
    hold for it. *)
Theorem error_precedence sys sid msg :
  reachable sys ->
  session_errors (store sys) !! sid = Some msg ->
  fst (get_result (store sys) sid) = store sys /\
  dict_get (snd (get_result (store sys) sid)) "status" = Some "error" /\
  dict_get (snd (get_result (store sys) sid)) "message" = Some msg /\
  snd (get_result (store sys) sid)
    = {["status" := Some "error"; "message" := Some msg; "output" := None]}.
Proof.
  intros Hr Hl. apply reachable_well_formed in Hr as [He _].
  destruct (He sid msg Hl) as [Hsid Hmsg].
  rewrite (get_result_error (store sys) sid msg Hsid Hl Hmsg).
  repeat split; reflexivity.
Qed.

Lemma error_precedence_witness :
  session_outputs (store Scenario.race_system) !! Scenario.sid = Some Scenario.gen_path /\
  Scenario.sid_file ∈ outputs_dir (store Scenario.race_system) /\
  dict_get (snd (get_result (store Scenario.race_system) Scenario.sid)) "status"
    = Some "error" /\
  dict_get (snd (get_result (store Scenario.race_system) Scenario.sid)) "message"
    = Some "try-on failed".
Proof.
  split; [vm_compute; reflexivity|]. split; [vm_compute; reflexivity|].
  pose proof (error_precedence Scenario.race_system Scenario.sid "try-on failed") as H.
  destruct H as (_ & Hs & Hm & _).
  - exists {[Scenario.sid_file]}, Scenario.race_events, []. vm_compute. reflexivity.
  - vm_compute. reflexivity.
  - split; [exact Hs|exact Hm].
Defined.

(** *** Terminal answers *)


(** *** The status of an answer *)

(** C6, as the code has it. The status of every answer is one of [pending],
    [ok] and [error], and a session with a non-empty id, no error message, no
    recorded output and no output file is answered [pending]. *)
Theorem get_result_status st sid :
  status_of (snd (get_result st sid)) ∈ [Some "pending"; Some "ok"; Some "error"] /\
  (sid <> "" -> if_truthy (session_errors st !! sid) = None ->
   session_outputs st !! sid = None -> sid +:+ ".jpg" ∉ outputs_dir st ->
   status_of (snd (get_result st sid)) = Some "pending").
Proof.
  split.
  - destruct (get_result_cases st sid) as
      [[_ H]|[(_ & ? & _ & H)|[(_ & _ & ? & _ & H)|[(_ & _ & _ & _ & H)|(_ & _ & _ & _ & H)]]]];
      rewrite H; simpl; set_solver.
  - intros Hsid He Ho Hf. now rewrite (get_result_pending st sid Hsid He Ho Hf).
Qed.

Lemma get_result_status_witness :
  status_of (snd (get_result (mkStore ∅ ∅ ∅) Scenario.sid)) = Some "pending".
Proof.
  apply (get_result_status (mkStore ∅ ∅ ∅) Scenario.sid).
  - discriminate.
  - reflexivity.
  - reflexivity.
  - vm_compute. discriminate.
Defined.

(** C6, as the claim states it, fails: a request is accepted with status
    [processing] and a thread is started for its session id; while the
    thread runs, the poll of that id answers with the one entry
    [status: pending]. *)
Lemma accepted_session_is_pending :
  let started := start_tryon (mkStore ∅ ∅ ∅) (Scenario.env_at 1700000000000)
                   Scenario.request_a in
  status_of (snd started) = Some "processing" /\
  dict_get (snd started) "session_id" = Some Scenario.sid /\
  snd (fst started) = Some Scenario.sid /\
  run (init ∅) [Start (Scenario.env_at 1700000000000) Scenario.request_a; Poll Scenario.sid]
    = Some (mkSystem (mkStore ∅ ∅ ∅) [Scenario.sid],
            [(Scenario.sid, {["status" := Some "pending"]})]).
Proof. repeat split; vm_compute; reflexivity. Qed.

(** *** The file fallback *)

(** C10, as the code has it. For a non-empty [sid] with no error entry and a
    file named after it: when no output is recorded yet, the poll records
    the public path of the file, answers [ok] with it, changes nothing else,
    and later polls give the same answer; when an output is already
    recorded, the poll answers with that output and writes nothing. *)
Theorem file_fallback_is_recorded st sid :
  sid <> "" ->
  session_errors st !! sid = None ->
  sid +:+ ".jpg" ∈ outputs_dir st ->
  let pub := "/static/outputs/" +:+ (sid +:+ ".jpg") in
  let st' := fst (get_result st sid) in
  (session_outputs st !! sid = None ->
     snd (get_result st sid) = ok_result pub /\
     session_outputs st' !! sid = Some pub /\
     (forall sid', sid' <> sid -> session_outputs st' !! sid' = session_outputs st !! sid') /\
     session_errors st' = session_errors st /\
     outputs_dir st' = outputs_dir st /\
     get_result st' sid = (st', ok_result pub)) /\
  (forall out, session_outputs st !! sid = Some out ->
     get_result st sid = (st, ok_result out)).
Proof.
  intros Hsid He Hf pub st'.
  assert (He' : if_truthy (session_errors st !! sid) = None) by now rewrite He.
  split.
  - intros Ho. subst st'. rewrite (get_result_file st sid Hsid He' Ho Hf). simpl.
    split; [reflexivity|]. split; [apply lookup_insert_eq|].
    split; [intros sid' Hne; now apply lookup_insert_ne|].
    split; [reflexivity|]. split; [reflexivity|].
    apply get_result_memo; [assumption|exact He'|apply lookup_insert_eq].
  - intros out Ho. now apply get_result_memo.
Qed.

Lemma file_fallback_is_recorded_witness :
  get_result (mkStore ∅ ∅ {[Scenario.sid_file]}) Scenario.sid
    = (mkStore {[Scenario.sid := "/static/outputs/tryon_1700000000000.jpg"]} ∅
               {[Scenario.sid_file]},
       ok_result "/static/outputs/tryon_1700000000000.jpg").
Proof.
  pose proof (file_fallback_is_recorded (mkStore ∅ ∅ {[Scenario.sid_file]}) Scenario.sid) as H.
  destruct H as [H _].
  - discriminate.
  - reflexivity.
  - vm_compute. reflexivity.
  - vm_compute. reflexivity.
Defined.

(** C10, as the claim states it, fails: with an output already recorded for
    the session, the poll answers with it and does not record the path of the
    file named after the session. *)
Lemma file_not_recorded_over_memo :
  reachable Scenario.memo_system /\
  session_errors (store Scenario.memo_system) !! Scenario.sid = None /\
  Scenario.sid +:+ ".jpg" ∈ outputs_dir (store Scenario.memo_system) /\
  get_result (store Scenario.memo_system) Scenario.sid
    = (store Scenario.memo_system, ok_result Scenario.gen_path) /\
  session_outputs (fst (get_result (store Scenario.memo_system) Scenario.sid)) !! Scenario.sid
    <> Some ("/static/outputs/" +:+ (Scenario.sid +:+ ".jpg")).
Proof.
  split.
  { exists {[Scenario.sid_file]}, Scenario.memo_events, []. vm_compute. reflexivity. }
  split; [reflexivity|]. split; [vm_compute; reflexivity|].
  split; [vm_compute; reflexivity|]. vm_compute. discriminate.
Qed.

(** *** Session identifiers *)

Lemma session_id_of_processing s p :
  dict_get (start_processing s p) "session_id" = Some s.
Proof. reflexivity. Qed.

Lemma session_id_of_error msg : dict_get (start_error msg) "session_id" = None.
Proof. reflexivity. Qed.

Lemma session_id_of_fallback s req : dict_get (gemini_fallback s req) "session_id" = Some s.
Proof. unfold gemini_fallback. now destruct (_ && _). Qed.

(** The session id in the answer of [start_tryon] is the one made from the
    clock. *)
Lemma start_tryon_session_id st env req s :
  dict_get (snd (start_tryon st env req)) "session_id" = Some s ->
  s = new_session_id env.
Proof.
  unfold start_tryon, _start_tryon_klingai, _start_tryon_gemini. intros H.
  repeat match type of H with
         | context [if ?b then _ else _] => destruct b
         | context [match ?x with _ => _ end] => destruct x
         end; simpl in H;
    rewrite ?session_id_of_processing, ?session_id_of_error, ?session_id_of_fallback in H;
    congruence.
Qed.

Lemma new_session_id_inj env1 env2 :
  new_session_id env1 = new_session_id env2 <-> now_ms env1 = now_ms env2.
Proof.
  unfold new_session_id. split; [|now intros ->].
  intros H. apply (inj (String.app "tryon_")) in H. now apply (inj pretty) in H.
Qed.

(** C8, as the code has it. The session ids that [start_tryon] gives to two
    accepted requests are equal exactly when the two calls read the same
    millisecond from the clock; they are distinct whenever the readings
    differ. *)
Theorem session_ids_follow_clock st1 st2 env1 env2 req1 req2 s1 s2 :
  dict_get (snd (start_tryon st1 env1 req1)) "session_id" = Some s1 ->
  dict_get (snd (start_tryon st2 env2 req2)) "session_id" = Some s2 ->
  (s1 = s2 <-> now_ms env1 = now_ms env2).
Proof.
  intros H1 H2. apply start_tryon_session_id in H1, H2. subst s1 s2.
  apply new_session_id_inj.
Qed.

Lemma session_ids_follow_clock_witness :
  Scenario.sid = Scenario.sid2 <-> 1700000000000 = 1700000000500.
Proof.
  apply (session_ids_follow_clock (mkStore ∅ ∅ ∅) (mkStore ∅ ∅ ∅)
           (Scenario.env_at 1700000000000) (Scenario.env_at 1700000000500)
           Scenario.request_a Scenario.request_b).
  - vm_compute. reflexivity.
  - vm_compute. reflexivity.
Defined.

(** C8, as the claim states it, fails: two different requests accepted within
    the same millisecond are given the same session id. *)
Lemma session_ids_collide :
  Scenario.request_a <> Scenario.request_b /\
  status_of (snd (start_tryon (mkStore ∅ ∅ ∅) (Scenario.env_at 1700000000000)
                    Scenario.request_a)) = Some "processing" /\
  status_of (snd (start_tryon (mkStore ∅ ∅ ∅) (Scenario.env_at 1700000000000)
                    Scenario.request_b)) = Some "processing" /\
  dict_get (snd (start_tryon (mkStore ∅ ∅ ∅) (Scenario.env_at 1700000000000)
                   Scenario.request_a)) "session_id" = Some Scenario.sid /\
  dict_get (snd (start_tryon (mkStore ∅ ∅ ∅) (Scenario.env_at 1700000000000)
                   Scenario.request_b)) "session_id" = Some Scenario.sid.
Proof.
  split; [discriminate|]. repeat split; vm_compute; reflexivity.
Qed.

End TryOnFacts.

(** ** Facts about the vendor pollers *)

Module PollFacts.
Import Video.

(** The image poller recognises the three success words, the two failure
    words, and keeps polling on the three progress words. *)
Lemma image_poll_classification (d : PyDict) :
  (forall s, s ∈ ["succeed"; "success"; "completed"] ->
     KlingAI.poll_turn (KlingAI.PollBody (KlingAI.mkTaskResult (Some s) d))
       = KlingAI.Done (KlingAI.mkTaskResult (Some s) d)) /\
  (forall s, s ∈ ["failed"; "error"] ->
     KlingAI.poll_turn (KlingAI.PollBody (KlingAI.mkTaskResult (Some s) d)) = KlingAI.Failed) /\
  (forall s, s ∈ ["processing"; "submitted"; "pending"] ->
     KlingAI.poll_turn (KlingAI.PollBody (KlingAI.mkTaskResult (Some s) d))
       = KlingAI.StillProcessing).
Proof.
  repeat split; intros s Hs; repeat (apply elem_of_cons in Hs as [->|Hs]);
    try reflexivity; now apply elem_of_nil in Hs.
Qed.

(** The video poller on the words it recognises. *)
Lemma video_poll_classification svc w now tid msg vs url content :
  requests_available svc = true -> has_keys svc = true ->
  first_video_url vs = Some url ->
  (forall s, s ∈ ["succeed"; "success"] ->
     dict_get (snd (poll_video_task svc w now tid (PollBody (mkTaskData (Some s) msg vs))
                      (DownloadHttp 200 content))) "status" = Some "completed") /\
  (forall s dl, s ∈ ["failed"; "error"] ->
     dict_get (snd (poll_video_task svc w now tid (PollBody (mkTaskData (Some s) msg vs)) dl))
       "status" = Some "failed") /\
  (forall s dl, s ∈ ["processing"; "submitted"; "pending"] ->
     dict_get (snd (poll_video_task svc w now tid (PollBody (mkTaskData (Some s) msg vs)) dl))
       "status" = Some "processing").
Proof.
  intros Hr Hk Hu. unfold poll_video_task. rewrite Hr, Hk. simpl.
  repeat split; [intros s Hs|intros s dl Hs|intros s dl Hs];
    repeat (apply elem_of_cons in Hs as [->|Hs]); try (now apply elem_of_nil in Hs);
    simpl; rewrite ?Hu; reflexivity.
Qed.

(** C3 at the word [completed]: the image poller takes it as done and returns
    the result, the video poller answers [unknown] and downloads nothing. *)
Theorem video_poll_completed_is_unknown :
  KlingAI._poll_task_result
      [KlingAI.PollBody (KlingAI.mkTaskResult (Some "completed") ∅)]
    = Some (KlingAI.mkTaskResult (Some "completed") ∅) /\
  dict_get (snd (poll_video_task VideoScenario.svc VideoScenario.nothing_yet 1700000009000
                   "T1" (VideoScenario.reply_with "completed") VideoScenario.download_ok))
           "status" = Some "unknown" /\
  downloads (fst (poll_video_task VideoScenario.svc VideoScenario.nothing_yet 1700000009000
                    "T1" (VideoScenario.reply_with "completed") VideoScenario.download_ok))
    = [].
Proof. repeat split; vm_compute; reflexivity. Qed.

(** C4, as the code has it. Every poll that finds the task succeeded, with a
    video URL and a download answered 200, downloads the video and writes it
    to a file named after the clock, whatever earlier polls have already
    downloaded and written. *)
Theorem poll_downloads_every_time svc w now tid data url content :
  requests_available svc = true -> has_keys svc = true ->
  task_status data ∈ [Some "succeed"; Some "success"] ->
  first_video_url (videos data) = Some url ->
  let name := "video_" +:+ pretty now +:+ ".mp4" in
  let w' := fst (poll_video_task svc w now tid (PollBody data) (DownloadHttp 200 content)) in
  snd (poll_video_task svc w now tid (PollBody data) (DownloadHttp 200 content))
    = poll_result "completed" (Some ("/static/outputs/" +:+ name)) None /\
  downloads w' = (downloads w ++ [url])%list /\
  files w' = <[name := content]> (files w).
Proof.
  intros Hr Hk Hs Hu name w'. subst w'. unfold poll_video_task.
  rewrite Hr, Hk. simpl. rewrite (bool_decide_eq_true_2 _ Hs), Hu. simpl.
  split; [reflexivity|]. split; [|reflexivity].
  unfold downloads. simpl. rewrite !omap_app. simpl. now rewrite app_nil_r.
Qed.

Lemma poll_downloads_every_time_witness :
  downloads (fst (poll_video_task VideoScenario.svc VideoScenario.polled_once
                    1700000011000 "T1" (VideoScenario.reply_with "succeed")
                    VideoScenario.download_ok))
    = [VideoScenario.video_url; VideoScenario.video_url].
Proof.
  pose proof (poll_downloads_every_time VideoScenario.svc VideoScenario.polled_once
                1700000011000 "T1"
                (mkTaskData (Some "succeed") None VideoScenario.one_video)
                VideoScenario.video_url "mp4-bytes") as H.
  apply H.
  - reflexivity.
  - reflexivity.
  - apply elem_of_cons; left; reflexivity.
  - reflexivity.
Defined.

(** C4, as the claim states it, fails: a second poll of the completed task
    downloads the same URL again and writes a second file. *)
Lemma second_poll_downloads_again :
  let p1 := poll_video_task VideoScenario.svc VideoScenario.nothing_yet 1700000009000 "T1"
              (VideoScenario.reply_with "succeed") VideoScenario.download_ok in
  let p2 := poll_video_task VideoScenario.svc (fst p1) 1700000011000 "T1"
              (VideoScenario.reply_with "succeed") VideoScenario.download_ok in
  dict_get (snd p1) "status" = Some "completed" /\
  downloads (fst p1) = [VideoScenario.video_url] /\
  downloads (fst p2) = [VideoScenario.video_url; VideoScenario.video_url] /\
  files (fst p2) = {["video_1700000009000.mp4" := "mp4-bytes";
                     "video_1700000011000.mp4" := "mp4-bytes"]}.
Proof. repeat split; vm_compute; reflexivity. Qed.

End PollFacts.

(** ** Facts about video submission *)

Module SubmitFacts.
Import Video.

Lemma payload_duration svc b64 prompt d :
  dict_get (submit_payload svc b64 prompt d) "duration" = Some (pretty d).
Proof. unfold submit_payload. now destruct (negb _). Qed.

(** What the service does with a request, whatever the duration. *)
Lemma generate_video_sends svc w env prompt d :
  if has_keys svc && requests_available svc && image_exists env
     && truthy_opt (image_base64 env)
  then exists b64, image_base64 env = Some b64 /\
       calls (fst (generate_video svc w env prompt d))
         = (calls w ++ [PostImage2Video (submit_payload svc b64 prompt d)])%list
  else fst (generate_video svc w env prompt d) = w /\
       dict_get (snd (generate_video svc w env prompt d)) "status" = Some "error".
Proof.
  unfold generate_video.
  destruct (has_keys svc); simpl; [|split; reflexivity].
  destruct (requests_available svc); simpl; [|split; reflexivity].
  destruct (image_exists env); simpl; [|split; reflexivity].
  destruct (image_base64 env) as [b|]; simpl; [|split; reflexivity].
  destruct (truthy b); simpl; [|split; reflexivity].
  exists b. split; [reflexivity|].
  destruct (post_reply env) as [|t|c [e|]|[t|]]; simpl; try reflexivity.
  unfold if_truthy. now destruct (truthy t).
Qed.

(** C5 at the duration 7. The docstring of the service gives the durations as
    5 or 10 and the payload comment repeats it, but neither the route nor
    the service compares the duration with anything: the request for seven
    seconds is sent to the vendor with duration ["7"], and the route answers
    200 with status [processing]. *)
Theorem duration_seven_reaches_vendor :
  let out := Api.generate_video VideoScenario.svc VideoScenario.nothing_yet
               VideoScenario.submit_env VideoScenario.seven_seconds in
  (Api.duration VideoScenario.seven_seconds ∉ [5; 10]) /\
  (exists payload, calls (fst (fst out)) = [PostImage2Video payload] /\
     dict_get payload "duration" = Some "7") /\
  dict_get (snd (fst out)) "status" = Some "processing" /\
  snd out = 200.
Proof.
  split.
  { intros H. repeat (apply elem_of_cons in H as [H|H]; [discriminate H|]).
    now apply elem_of_nil in H. }
  split; [eexists; split; vm_compute; reflexivity|].
  split; vm_compute; reflexivity.
Qed.

End SubmitFacts.

(** ** Facts about the ROI boxes *)

Module ROIFacts.
Import ROI.

(** C7. For an image of at least one pixel each way, both boxes lie inside
    the image and are at least one pixel wide and high, whatever the
    rounding of the fractions gives. *)
Theorem roi_boxes_in_image (round_times : Z * Z -> Z -> Z) (w h : Z) :
  1 <= w -> 1 <= h ->
  box_in_image w h (_compute_lower_body_roi round_times w h) /\
  box_in_image w h (_compute_upper_body_roi round_times w h).
Proof.
  intros Hw Hh. unfold box_in_image, _compute_lower_body_roi, _compute_upper_body_roi.
  split; lia.
Qed.

Lemma roi_boxes_in_image_witness :
  box_in_image 640 480 (96, 216, 544, 442) /\ box_in_image 640 480 (64, 24, 576, 264).
Proof.
  apply (roi_boxes_in_image round_half_even_times 640 480); lia.
Defined.

End ROIFacts.

(** ** More facts about polling and the session tables *)

Module TableFacts.
Import TryOn TryOnFacts Job.

(** X1. A second poll right after a poll gives the same answer and leaves
    the store as the first poll left it. *)
Theorem poll_twice st sid :
  get_result (fst (get_result st sid)) sid
    = (fst (get_result st sid), snd (get_result st sid)).
Proof.
  destruct (get_result_cases st sid) as
    [[-> H]|[(Hsid & msg & He & H)|[(Hsid & He & out & Ho & H)|
      [(Hsid & He & Ho & Hf & H)|(Hsid & He & Ho & Hf & H)]]]];
    rewrite H; simpl; try exact H.
  apply get_result_memo; [assumption|exact He|apply lookup_insert_eq].
Qed.

(** *** Entries of the tables *)

Lemma tables_nonempty_set_error st sid msg :
  tables_nonempty st -> sid <> "" -> msg <> "" -> tables_nonempty (set_error st sid msg).
Proof.
  intros [He Ho] Hsid Hmsg. split; [|exact Ho]. simpl. intros s m.
  destruct (decide (sid = s)) as [<-|Hne].
  - rewrite lookup_insert_eq. intros [= <-]. now split.
  - rewrite lookup_insert_ne by assumption. apply He.
Qed.

Lemma tables_nonempty_set_output st sid out :
  tables_nonempty st -> sid <> "" -> out <> "" -> tables_nonempty (set_output st sid out).
Proof.
  intros [He Ho] Hsid Hout. split; [exact He|]. simpl. intros s m.
  destruct (decide (sid = s)) as [<-|Hne].
  - rewrite lookup_insert_eq. intros [= <-]. now split.
  - rewrite lookup_insert_ne by assumption. apply Ho.
Qed.

Lemma tables_nonempty_step sys ev sys' resp :
  well_formed sys -> tables_nonempty (store sys) ->
  step sys ev = Some (sys', resp) -> tables_nonempty (store sys').
Proof.
  intros Hwf Ht. destruct sys as [st js].
  destruct ev as [env req|env req|sid o|sid|fname]; simpl.
  - destruct (start_tryon st env req) as [[st' j] r] eqn:E. intros [= <- <-].
    now apply start_tryon_spec in E as [-> _].
  - destruct (start_tryon_advanced st env req) as [[st' j] r] eqn:E. intros [= <- <-].
    apply start_tryon_advanced_spec in E as [[-> | (_ & _ & ->)] _]; [exact Ht|].
    apply tables_nonempty_set_error; [exact Ht|apply new_session_id_nonempty|discriminate].
  - destruct (decide (sid ∈ js)) as [Hin|]; [|discriminate]. intros [= <- <-].
    assert (Hsid : sid <> "") by now apply Hwf.
    destruct (bg_job_spec st sid o) as [(out & Hout & ->)|(msg & Hmsg & ->)]; simpl.
    + now apply tables_nonempty_set_output.
    + now apply tables_nonempty_set_error.
  - destruct (get_result st sid) as [st' r] eqn:E. intros [= <- <-].
    destruct (get_result_cases st sid) as
      [[_ H]|[(_ & ? & _ & H)|[(_ & _ & ? & _ & H)|[(Hsid & _ & _ & _ & H)|(_ & _ & _ & _ & H)]]]];
      rewrite H in E; injection E as <- <-; simpl; try exact Ht.
    apply tables_nonempty_set_output; [exact Ht|exact Hsid|discriminate].
  - intros [= <- <-]. exact Ht.
Qed.

Lemma tables_nonempty_run evs : forall sys sys' tr,
  well_formed sys -> tables_nonempty (store sys) ->
  run sys evs = Some (sys', tr) -> tables_nonempty (store sys').
Proof.
  induction evs as [|ev evs IH]; simpl; intros sys sys' tr Hwf Ht H.
  - now injection H as <- <-.
  - destruct (step sys ev) as [[sys1 resp]|] eqn:E1; [|discriminate].
    destruct (run sys1 evs) as [[sys2 tr2]|] eqn:E2; [|discriminate].
    assert (sys2 = sys') as <- by (destruct ev, resp; now injection H).
    eapply IH; [| |exact E2].
    + eapply well_formed_step; eassumption.
    + eapply tables_nonempty_step; eassumption.
Qed.

(** X3. In every state the service can reach, each entry of the error table
    and of the success table has a non-empty session id and a non-empty
    value. *)
Theorem reachable_tables_nonempty sys : reachable sys -> tables_nonempty (store sys).
Proof.
  intros (files & evs & tr & H).
  eapply tables_nonempty_run; [apply well_formed_init| |exact H].
  split; simpl; intros sid x; rewrite lookup_empty; discriminate.
Qed.

Lemma reachable_tables_nonempty_witness : tables_nonempty (store Scenario.race_system).
Proof.
  apply reachable_tables_nonempty.
  exists {[Scenario.sid_file]}, Scenario.race_events, []. vm_compute. reflexivity.
Defined.

(** *** Errors stay *)

Lemma get_result_errors st sid :
  session_errors (fst (get_result st sid)) = session_errors st.
Proof.
  destruct (get_result_cases st sid) as
    [[_ H]|[(_ & ? & _ & H)|[(_ & _ & ? & _ & H)|[(_ & _ & _ & _ & H)|(_ & _ & _ & _ & H)]]]];
    now rewrite H.
Qed.

Lemma step_keeps_error sys ev sys' resp sid :
  is_Some (session_errors (store sys) !! sid) ->
  step sys ev = Some (sys', resp) ->
  is_Some (session_errors (store sys') !! sid).
Proof.
  intros Hs. destruct sys as [st js].
  destruct ev as [env req|env req|sid' o|sid'|fname]; simpl.
  - destruct (start_tryon st env req) as [[st' j] r] eqn:E. intros [= <- <-].
    now apply start_tryon_spec in E as [-> _].
  - destruct (start_tryon_advanced st env req) as [[st' j] r] eqn:E. intros [= <- <-].
    apply start_tryon_advanced_spec in E as [[-> | (_ & _ & ->)] _]; [exact Hs|].
    simpl. rewrite lookup_insert_is_Some. destruct (decide (new_session_id env = sid)); auto.
  - destruct (decide (sid' ∈ js)); [|discriminate]. intros [= <- <-].
    destruct (bg_job_spec st sid' o) as [(out & _ & ->)|(msg & _ & ->)]; simpl; [exact Hs|].
    rewrite lookup_insert_is_Some. destruct (decide (sid' = sid)); auto.
  - destruct (get_result st sid') as [st' r] eqn:E. intros [= <- <-]. simpl.
    replace st' with (fst (get_result st sid')) by now rewrite E.
    now rewrite get_result_errors.
  - intros [= <- <-]. exact Hs.
Qed.

Lemma error_status_iff st sid :
  sid <> "" ->
  status_of (snd (get_result st sid)) = Some "error" <->
  exists msg, if_truthy (session_errors st !! sid) = Some msg.
Proof.
  intros Hsid.
  destruct (get_result_cases st sid) as
    [[-> H]|[(_ & msg & He & H)|[(_ & He & out & Ho & H)|
      [(_ & He & Ho & Hf & H)|(_ & He & Ho & Hf & H)]]]];
    [now destruct Hsid|rewrite H; simpl..].
  - split; [eauto|reflexivity].
  - rewrite He. split; [discriminate|intros [? ?]; discriminate].
  - rewrite He. split; [discriminate|intros [? ?]; discriminate].
  - rewrite He. split; [discriminate|intros [? ?]; discriminate].
Qed.

Lemma error_stays_run evs : forall sys sys' tr sid,
  well_formed sys -> sid <> "" ->
  is_Some (session_errors (store sys) !! sid) ->
  run sys evs = Some (sys', tr) ->
  is_Some (session_errors (store sys') !! sid) /\
  Forall (fun p => fst p = sid -> status_of (snd p) = Some "error") tr.
Proof.
  induction evs as [|ev evs IH]; simpl; intros sys sys' tr sid Hwf Hsid Hs H.
  - injection H as <- <-. split; [exact Hs|constructor].
  - destruct (step sys ev) as [[sys1 resp]|] eqn:E1; [|discriminate].
    destruct (run sys1 evs) as [[sys2 tr2]|] eqn:E2; [|discriminate].
    pose proof (well_formed_step _ _ _ _ Hwf E1) as Hwf1.
    pose proof (step_keeps_error _ _ _ _ _ Hs E1) as Hs1.
    destruct (IH _ _ _ _ Hwf1 Hsid Hs1 E2) as [Hs2 Htr].
    destruct ev as [env req|env req|sid' o|sid'|fname];
      try (destruct resp; injection H as <- <-; now split).
    destruct resp as [d|]; injection H as <- <-; (split; [exact Hs2|]); [|exact Htr].
    constructor; [|exact Htr]. simpl. intros ->.
    simpl in E1. destruct (get_result (store sys) sid) as [st1 r1] eqn:E.
    injection E1 as <- <-.
    replace r1 with (snd (get_result (store sys) sid)) by now rewrite E.
    apply error_status_iff; [exact Hsid|].
    destruct Hs as [m Hm]. exists m. apply if_truthy_Some. split; [exact Hm|].
    now apply Hwf in Hm.
Qed.

(** X4. Once a poll of a session has answered with status [error], every
    later poll of that session answers with status [error], whatever jobs
    finish, sessions start, files appear or polls are made in between. *)
Theorem error_is_absorbing sys sid evs sys' tr :
  reachable sys ->
  status_of (snd (get_result (store sys) sid)) = Some "error" ->
  run sys evs = Some (sys', tr) ->
  status_of (snd (get_result (store sys') sid)) = Some "error" /\
  Forall (fun p => fst p = sid -> status_of (snd p) = Some "error") tr.
Proof.
  intros Hr He Hrun. apply reachable_well_formed in Hr.
  destruct (decide (sid = "")) as [->|Hsid].
  { split; [reflexivity|].
    clear He. revert sys sys' tr Hr Hrun.
    induction evs as [|ev evs IH]; simpl; intros sys sys' tr Hwf H.
    - injection H as <- <-. constructor.
    - destruct (step sys ev) as [[sys1 resp]|] eqn:E1; [|discriminate].
      destruct (run sys1 evs) as [[sys2 tr2]|] eqn:E2; [|discriminate].
      pose proof (IH _ _ _ (well_formed_step _ _ _ _ Hwf E1) E2) as Htr.
      destruct ev as [env req|env req|sid' o|sid'|fname];
        try (destruct resp; injection H as <- <-; exact Htr).
      destruct resp as [d|]; injection H as <- <-; [|exact Htr].
      constructor; [|exact Htr]. simpl. intros ->. simpl in E1.
      now injection E1 as <- <-. }
  apply (error_status_iff _ _ Hsid) in He as [msg He].
  apply if_truthy_Some in He as [He _].
  destruct (error_stays_run evs sys sys' tr sid Hr Hsid (mk_is_Some _ _ He) Hrun) as [[m Hm] Htr].
  split; [|exact Htr].
  apply (error_status_iff _ _ Hsid). exists m. apply if_truthy_Some. split; [exact Hm|].
  pose proof (well_formed_run _ _ _ _ Hr Hrun) as Hwf'. now apply Hwf' in Hm.
Qed.

Lemma error_is_absorbing_witness :
  status_of (snd (get_result (store Scenario.absorbed_system) Scenario.sid)) = Some "error" /\
  Forall (fun p => fst p = Scenario.sid -> status_of (snd p) = Some "error")
         Scenario.absorbed_trace.
Proof.
  apply (error_is_absorbing Scenario.race_system Scenario.sid Scenario.absorbed_events).
  - exists {[Scenario.sid_file]}, Scenario.race_events, []. vm_compute. reflexivity.
  - vm_compute. reflexivity.
  - vm_compute. reflexivity.
Defined.

End TableFacts.

(** ** More facts about jobs and starts *)

Module JobFacts.
Import TryOn TryOnFacts Job.

Lemma bg_job_produced st sid o :
  match produced o with
  | Some out => out <> "" /\ _bg_job st sid o = set_output st sid out
  | None => exists msg, msg <> "" /\ _bg_job st sid o = set_error st sid msg
  end.
Proof.
  destruct o as [res|name]; simpl.
  - destruct (if_truthy (dict_get res "output_path")) as [out|] eqn:E.
    + destruct (decide (dict_get res "status" = Some "ok")).
      * split; [|reflexivity]. now apply if_truthy_Some in E.
      * eexists. split; [|reflexivity]. now apply py_or_nonempty.
    + destruct (decide (dict_get res "status" = Some "ok"));
        (eexists; split; [|reflexivity]); now apply py_or_nonempty.
  - eexists. split; [|reflexivity]. now apply append_nonempty.
Qed.

(** X5. What a finished job leaves is what the next poll reports. A result
    with status [ok] and a non-empty output path is recorded as the output
    of the session and, unless an error is recorded for it, the poll answers
    [ok] with that path. Any other result and any exception is recorded as
    an error with a non-empty message, and the poll answers [error] with
    it. A job writes one table and leaves the other as it is. *)
Theorem job_outcome_is_reported st sid o :
  sid <> "" ->
  match produced o with
  | Some out =>
      session_errors (_bg_job st sid o) = session_errors st /\
      session_outputs (_bg_job st sid o) !! sid = Some out /\
      (if_truthy (session_errors st !! sid) = None ->
       get_result (_bg_job st sid o) sid = (_bg_job st sid o, ok_result out))
  | None =>
      session_outputs (_bg_job st sid o) = session_outputs st /\
      exists msg, msg <> "" /\
        get_result (_bg_job st sid o) sid = (_bg_job st sid o, error_result msg)
  end.
Proof.
  intros Hsid. pose proof (bg_job_produced st sid o) as H.
  destruct (produced o) as [out|].
  - destruct H as [Hout ->]. simpl. split; [reflexivity|].
    split; [apply lookup_insert_eq|]. intros He.
    apply get_result_memo; [assumption|exact He|apply lookup_insert_eq].
  - destruct H as (msg & Hmsg & ->). simpl. split; [reflexivity|].
    exists msg. split; [exact Hmsg|].
    apply get_result_error; [assumption|apply lookup_insert_eq|exact Hmsg].
Qed.

Lemma job_outcome_is_reported_witness :
  session_outputs (_bg_job (mkStore ∅ ∅ ∅) Scenario.sid (Raised "TimeoutError")) = ∅ /\
  exists msg, msg <> "" /\
    get_result (_bg_job (mkStore ∅ ∅ ∅) Scenario.sid (Raised "TimeoutError")) Scenario.sid
      = (_bg_job (mkStore ∅ ∅ ∅) Scenario.sid (Raised "TimeoutError"), error_result msg).
Proof.
  apply (job_outcome_is_reported (mkStore ∅ ∅ ∅) Scenario.sid (Raised "TimeoutError")).
  discriminate.
Defined.

(** X6. [start_tryon] never writes the session tables. Its answer either
    has status [error], no session id, and no thread was started; or it has
    status [processing] and the session id made from the clock, and the
    thread it started, if any, works for that session id. *)
Theorem start_tryon_outcome st env req :
  let '(st', j, resp) := start_tryon st env req in
  st' = st /\
  ((status_of resp = Some "error" /\ dict_get resp "session_id" = None /\ j = None) \/
   (status_of resp = Some "processing" /\
    dict_get resp "session_id" = Some (new_session_id env) /\
    (j = None \/ j = Some (new_session_id env)))).
Proof.
  destruct (start_tryon st env req) as [[st' j] resp] eqn:E. revert E.
  unfold start_tryon, _start_tryon_klingai, _start_tryon_gemini, gemini_fallback.
  repeat match goal with
         | |- context [if ?b then _ else _] => destruct b
         | |- context [match ?x with _ => _ end] => destruct x
         end; intros [= <- <- <-]; (split; [reflexivity|]);
    first [left; repeat split; reflexivity | right; repeat split; auto].
Qed.

(** X7. With Gemini selected and the Gemini service absent, [start_tryon]
    answers [processing] with a session id although it starts no thread and
    writes nothing; a poll of that id, with nothing recorded for it and no
    file named after it, answers [pending]. *)
Theorem start_without_gemini sys env req :
  vendor env <> "KlingAI" ->
  gemini_present env = false ->
  exists resp,
    step sys (Start env req) = Some (sys, Some resp) /\
    status_of resp = Some "processing" /\
    dict_get resp "session_id" = Some (new_session_id env) /\
    (session_errors (store sys) !! new_session_id env = None ->
     session_outputs (store sys) !! new_session_id env = None ->
     new_session_id env +:+ ".jpg" ∉ outputs_dir (store sys) ->
     get_result (store sys) (new_session_id env) = (store sys, pending_result)).
Proof.
  intros Hv Hg. destruct sys as [st js]. simpl.
  unfold start_tryon. destruct (decide (vendor env = "KlingAI")); [contradiction|].
  unfold _start_tryon_gemini. rewrite Hg. simpl.
  exists (gemini_fallback (new_session_id env) req). split; [reflexivity|].
  split; [unfold gemini_fallback; now destruct (_ && _)|].
  split; [apply session_id_of_fallback|].
  intros He Ho Hf. apply get_result_pending; auto using new_session_id_nonempty.
  now rewrite He.
Qed.

Lemma start_without_gemini_witness :
  exists resp,
    step (init ∅) (Start Scenario.env_no_gemini Scenario.request_a) = Some (init ∅, Some resp) /\
    status_of resp = Some "processing" /\
    dict_get resp "session_id" = Some Scenario.sid /\
    (session_errors (store (init ∅)) !! Scenario.sid = None ->
     session_outputs (store (init ∅)) !! Scenario.sid = None ->
     Scenario.sid +:+ ".jpg" ∉ outputs_dir (store (init ∅)) ->
     get_result (store (init ∅)) Scenario.sid = (store (init ∅), pending_result)).
Proof.
  apply (start_without_gemini (init ∅) Scenario.env_no_gemini Scenario.request_a).
  - discriminate.
  - reflexivity.
Defined.

(** X8. When Gemini is selected and its client is unavailable,
    [start_tryon_advanced] starts no thread, records the error for the new
    session id and answers with status [error] and that session id; a poll
    of the id then answers [error] with the same message, whatever the
    tables held before. *)
Theorem advanced_start_without_client st env req :
  vendor env <> "KlingAI" ->
  gemini_present env && gemini_client_on env = false ->
  let '(st', j, resp) := start_tryon_advanced st env req in
  j = None /\
  status_of resp = Some "error" /\
  dict_get resp "session_id" = Some (new_session_id env) /\
  dict_get resp "message" = Some "Gemini client unavailable" /\
  get_result st' (new_session_id env) = (st', error_result "Gemini client unavailable").
Proof.
  intros Hv Hg. unfold start_tryon_advanced.
  destruct (decide (vendor env = "KlingAI")); [contradiction|].
  assert (E : negb (gemini_present env) || negb (gemini_client_on env) = true).
  { destruct (gemini_present env), (gemini_client_on env); simpl in *; congruence. }
  rewrite E. repeat (split; [reflexivity|]).
  apply get_result_error; [apply new_session_id_nonempty| |discriminate].
  simpl. apply lookup_insert_eq.
Qed.

Lemma advanced_start_without_client_witness :
  get_result (fst (fst (start_tryon_advanced (store Scenario.memo_system)
                          Scenario.env_no_client Scenario.request_a))) Scenario.sid
    = (fst (fst (start_tryon_advanced (store Scenario.memo_system)
                   Scenario.env_no_client Scenario.request_a)),
       error_result "Gemini client unavailable").
Proof.
  pose proof (advanced_start_without_client (store Scenario.memo_system)
                Scenario.env_no_client Scenario.request_a) as H.
  destruct (start_tryon_advanced (store Scenario.memo_system) Scenario.env_no_client
              Scenario.request_a) as [[st' j] resp].
  apply H.
  - discriminate.
  - reflexivity.
Defined.

End JobFacts.

(** ** More facts about the pollers and the submission *)

Module VendorFacts.
Import Video.

Lemma poll_turn_done r result :
  KlingAI.poll_turn r = KlingAI.Done result <->
  r = KlingAI.PollBody result /\
  KlingAI.task_status result ∈ [Some "completed"; Some "succeed"; Some "success"].
Proof.
  destruct r as [|c|res]; simpl; try (split; [discriminate|intros [? _]; discriminate]).
  destruct (bool_decide _) eqn:E1.
  - apply bool_decide_eq_true in E1. split.
    + intros [= <-]. now split.
    + intros [[= <-] _]. reflexivity.
  - apply bool_decide_eq_false in E1.
    destruct (bool_decide _); (split; [discriminate|intros [[= <-] H]; contradiction]).
Qed.

(** X9. The image poller returns a result exactly when some answer reports
    one of the three success words and every answer before it leaves the
    task in progress; it returns that first successful answer. Failed
    requests, HTTP errors and unknown status words keep it polling; a
    failure word or the end of the answers (timeout) gives [None]. *)
Theorem image_poll_returns_first_success replies result :
  KlingAI._poll_task_result replies = Some result <->
  exists before after,
    replies = (before ++ KlingAI.PollBody result :: after)%list /\
    Forall (fun r => KlingAI.poll_turn r = KlingAI.StillProcessing) before /\
    KlingAI.task_status result ∈ [Some "completed"; Some "succeed"; Some "success"].
Proof.
  induction replies as [|r replies IH]; simpl.
  - split; [discriminate|]. intros (before & after & H & _). now destruct before.
  - destruct (KlingAI.poll_turn r) eqn:E.
    + split.
      * intros [= <-]. apply poll_turn_done in E as [-> Hs].
        exists [], replies. repeat split; [constructor|exact Hs].
      * intros (before & after & H & Hb & _). destruct before as [|b before].
        -- injection H as -> _. apply poll_turn_done in E as [[= ->] _]. reflexivity.
        -- injection H as <- _. apply Forall_cons in Hb as [Hb _]. congruence.
    + split; [discriminate|]. intros (before & after & H & Hb & Hs).
      destruct before as [|b before].
      * injection H as -> _. assert (E' : KlingAI.poll_turn (KlingAI.PollBody result)
                                            = KlingAI.Done result)
          by now apply poll_turn_done.
        congruence.
      * injection H as <- _. apply Forall_cons in Hb as [Hb _]. congruence.
    + rewrite IH. split.
      * intros (before & after & -> & Hb & Hs). exists (r :: before), after.
        repeat split; [constructor; assumption|exact Hs].
      * intros (before & after & H & Hb & Hs). destruct before as [|b before].
        -- injection H as -> _. assert (E' : KlingAI.poll_turn (KlingAI.PollBody result)
                                              = KlingAI.Done result)
             by now apply poll_turn_done.
           congruence.
        -- injection H as <- ->. apply Forall_cons in Hb as [_ Hb].
           exists before, after. repeat split; assumption.
Qed.

(** X10. The answer of the video poller has one of five status words; it
    carries an output path exactly when the status is [completed], and that
    is exactly when a file was written: the file is named after the clock,
    holds the downloaded bytes, and the path in the answer points to it. In
    every other case no file is written. *)
Theorem video_poll_outcome svc w now tid reply dl :
  let w' := fst (poll_video_task svc w now tid reply dl) in
  let r := snd (poll_video_task svc w now tid reply dl) in
  let name := "video_" +:+ pretty now +:+ ".mp4" in
  dict_get r "status" ∈ [Some "error"; Some "completed"; Some "failed";
                         Some "processing"; Some "unknown"] /\
  (dict_get r "status" = Some "completed" <-> dict_get r "output_path" <> None) /\
  (dict_get r "status" = Some "completed" ->
     dict_get r "output_path" = Some ("/static/outputs/" +:+ name) /\
     exists content, dl = DownloadHttp 200 content /\
                     files w' = <[name := content]> (files w)) /\
  (dict_get r "status" <> Some "completed" -> files w' = files w).
Proof.
  unfold poll_video_task.
  destruct (requests_available svc); simpl;
    [|split; [set_solver|]; split; [split; [discriminate|intros H; now destruct H]|];
      split; [discriminate|reflexivity]].
  destruct (has_keys svc); simpl;
    [|split; [set_solver|]; split; [split; [discriminate|intros H; now destruct H]|];
      split; [discriminate|reflexivity]].
  destruct reply as [text|code [body|]|data]; simpl;
    try (split; [set_solver|]; split; [split; [discriminate|intros H; now destruct H]|];
         split; [discriminate|reflexivity]).
  destruct (bool_decide (task_status data ∈ [Some "succeed"; Some "success"])); simpl.
  - destruct (first_video_url (videos data)) as [url|]; simpl;
      [|split; [set_solver|]; split; [split; [discriminate|intros H; now destruct H]|];
        split; [discriminate|reflexivity]].
    destruct dl as [text|code content]; simpl;
      [split; [set_solver|]; split; [split; [discriminate|intros H; now destruct H]|];
       split; [discriminate|reflexivity]|].
    destruct (decide (code = 200)) as [->|]; simpl.
    + split; [set_solver|]. split; [split; [discriminate|reflexivity]|].
      split; [|intros H; now destruct H].
      intros _. split; [reflexivity|]. exists content. split; reflexivity.
    + split; [set_solver|]. split; [split; [discriminate|intros H; now destruct H]|].
      split; [discriminate|reflexivity].
  - destruct (bool_decide (task_status data ∈ [Some "failed"; Some "error"])); simpl;
      [split; [set_solver|]; split; [split; [discriminate|intros H; now destruct H]|];
       split; [discriminate|reflexivity]|].
    destruct (bool_decide (task_status data ∈ [Some "processing"; Some "submitted";
                                                Some "pending"])); simpl;
      (split; [set_solver|]; split; [split; [discriminate|intros H; now destruct H]|];
       split; [discriminate|reflexivity]).
Qed.

(** X11. The video poller sends nothing and writes nothing without
    credentials or without the HTTP library. Otherwise it sends the status
    request for the task and then either nothing more, and writes nothing,
    or one download; it downloads only when the vendor reported [succeed] or
    [success] together with a video URL, which is the URL it fetches. *)
Theorem video_poll_requests svc w now tid reply dl :
  let w' := fst (poll_video_task svc w now tid reply dl) in
  (requests_available svc && has_keys svc = false -> w' = w) /\
  (requests_available svc && has_keys svc = true ->
     (calls w' = (calls w ++ [GetTask tid])%list /\ files w' = files w) \/
     exists data url,
       reply = PollBody data /\
       task_status data ∈ [Some "succeed"; Some "success"] /\
       first_video_url (videos data) = Some url /\
       calls w' = (calls w ++ [GetTask tid; GetUrl url])%list).
Proof.
  unfold poll_video_task.
  destruct (requests_available svc); simpl; [|split; [reflexivity|discriminate]].
  destruct (has_keys svc); simpl; [|split; [reflexivity|discriminate]].
  split; [discriminate|]. intros _.
  destruct reply as [text|code [body|]|data]; try (left; split; reflexivity).
  destruct (bool_decide (task_status data ∈ [Some "succeed"; Some "success"])) eqn:Es.
  - apply bool_decide_eq_true in Es.
    destruct (first_video_url (videos data)) as [url|] eqn:Eu; [|left; split; reflexivity].
    right. exists data, url. split; [reflexivity|]. split; [exact Es|].
    split; [exact Eu|].
    destruct dl as [text|code content]; [|destruct (decide (code = 200))]; simpl;
      now rewrite <- app_assoc.
  - destruct (bool_decide (task_status data ∈ [Some "failed"; Some "error"]));
      [left; split; reflexivity|].
    destruct (bool_decide (task_status data ∈ [Some "processing"; Some "submitted";
                                                Some "pending"])); left; split; reflexivity.
Qed.

Lemma video_poll_requests_witness :
  fst (poll_video_task (mkService None None "kling-v1" "std" true) VideoScenario.polled_once
         1700000011000 "T1" (VideoScenario.reply_with "succeed") VideoScenario.download_ok)
    = VideoScenario.polled_once.
Proof.
  apply (video_poll_requests (mkService None None "kling-v1" "std" true)
           VideoScenario.polled_once 1700000011000 "T1"
           (VideoScenario.reply_with "succeed") VideoScenario.download_ok).
  reflexivity.
Defined.

(** X12. The answer of a video submission has status [error] or
    [processing]; it carries a task id exactly when the status is
    [processing], and then the request was sent to the vendor. A submission
    sends at most one request and writes no file. *)
Theorem submit_outcome svc w env prompt d :
  let w' := fst (generate_video svc w env prompt d) in
  let r := snd (generate_video svc w env prompt d) in
  dict_get r "status" ∈ [Some "error"; Some "processing"] /\
  (dict_get r "status" = Some "processing" <-> dict_get r "task_id" <> None) /\
  (dict_get r "status" = Some "processing" ->
     exists payload, calls w' = (calls w ++ [PostImage2Video payload])%list) /\
  (length (calls w') <= length (calls w) + 1)%nat /\
  files w' = files w.
Proof.
  unfold generate_video.
  assert (Herr : forall (w0 : World) (m : option string),
            (length (calls w0) <= length (calls w) + 1)%nat -> files w0 = files w ->
            dict_get (submit_result "error" None m) "status"
              ∈ [Some "error"; Some "processing"] /\
            (dict_get (submit_result "error" None m) "status" = Some "processing" <->
             dict_get (submit_result "error" None m) "task_id" <> None) /\
            (dict_get (submit_result "error" None m) "status" = Some "processing" ->
             exists payload, calls w0 = (calls w ++ [PostImage2Video payload])%list) /\
            (length (calls w0) <= length (calls w) + 1)%nat /\ files w0 = files w).
  { intros w0 m Hl Hf. split; [set_solver|].
    split; [split; [discriminate|intros H; now destruct H]|].
    split; [discriminate|]. now split. }
  destruct (has_keys svc); simpl; [|apply Herr; [lia|reflexivity]].
  destruct (requests_available svc); simpl; [|apply Herr; [lia|reflexivity]].
  destruct (image_exists env); simpl; [|apply Herr; [lia|reflexivity]].
  destruct (if_truthy (image_base64 env)) as [b64|]; [|apply Herr; [simpl; lia|reflexivity]].
  assert (Hl : (length (calls (send w (PostImage2Video (submit_payload svc b64 prompt d))))
                  <= length (calls w) + 1)%nat).
  { simpl. rewrite length_app. simpl. lia. }
  destruct (post_reply env) as [|text|code [body|]|task_id];
    try (apply Herr; [exact Hl|reflexivity]).
  destruct (if_truthy task_id) as [t|]; [|apply Herr; [exact Hl|reflexivity]].
  split; [apply elem_of_cons; right; apply elem_of_cons; left; reflexivity|].
  split; [split; [discriminate|reflexivity]|].
  split; [intros _; eexists; reflexivity|]. split; [exact Hl|reflexivity].
Qed.

End VendorFacts.

(** ** Facts about the history repository *)

Module HistoryFacts.
Import History.

Lemma record_id_merge r a b c d : record_id (merge r a b c d) = record_id r.
Proof. reflexivity. Qed.

Lemma update_record_spec records id a b c d :
  match get_record records id with
  | Some r =>
      update_record records id a b c d
        = (fst (update_record records id a b c d), Some (merge r a b c d)) /\
      get_record (fst (update_record records id a b c d)) id = Some (merge r a b c d)
  | None => update_record records id a b c d = (records, None)
  end /\
  length (fst (update_record records id a b c d)) = length records /\
  (forall id', id' <> id ->
     get_record (fst (update_record records id a b c d)) id' = get_record records id').
Proof.
  induction records as [|r rest IH]; simpl.
  - repeat split; reflexivity.
  - destruct (decide (record_id r = id)) as [Hid|Hid]; simpl.
    + rewrite decide_True by exact Hid. repeat split.
      intros id' Hne. rewrite !decide_False by congruence. reflexivity.
    + destruct (update_record rest id a b c d) as [rest' found] eqn:E. simpl in *.
      rewrite decide_False by exact Hid.
      destruct IH as (IH1 & IH2 & IH3). repeat split.
      * destruct (get_record rest id) as [x|].
        -- destruct IH1 as [IH1 IH1']. injection IH1 as ->. now split.
        -- now injection IH1 as -> ->.
      * now rewrite IH2.
      * intros id' Hne. destruct (decide (record_id r = id')); [reflexivity|].
        now apply IH3.
Qed.

(** X13. [update_record] merges: the first record with the given id keeps
    its id, timestamp, photo paths and garment fields, and takes the result
    path, video path, status and error message that were passed, keeping its
    own where [None] was passed; the updated record is returned and is what
    [get_record] finds afterwards. With an unknown id nothing changes and
    [None] is returned. The number of records and every record with another
    id are left as they were. *)
Theorem update_record_merges records id result_photo video st err :
  match get_record records id with
  | Some r =>
      snd (update_record records id result_photo video st err)
        = Some (merge r result_photo video st err) /\
      get_record (fst (update_record records id result_photo video st err)) id
        = Some (merge r result_photo video st err)
  | None => update_record records id result_photo video st err = (records, None)
  end /\
  length (fst (update_record records id result_photo video st err)) = length records /\
  (forall id', id' <> id ->
     get_record (fst (update_record records id result_photo video st err)) id'
       = get_record records id').
Proof.
  destruct (update_record_spec records id result_photo video st err) as (H1 & H2 & H3).
  split; [|split; assumption].
  destruct (get_record records id); [|exact H1].
  destruct H1 as [H1 H1']. split; [now rewrite H1|exact H1'].
Qed.

Lemma get_record_app records r id :
  get_record (records ++ [r]) id =
    match get_record records id with
    | Some x => Some x
    | None => if decide (record_id r = id) then Some r else None
    end.
Proof.
  induction records as [|x rest IH]; simpl; [reflexivity|].
  destruct (decide (record_id x = id)); [reflexivity|exact IH].
Qed.

(** X14. A record added under a fresh id is the one [get_record] finds for
    that id; the lookups of all other ids are unchanged and the count grows
    by one. *)
Theorem add_then_get records new_id now user_photo garment_photo result_photo video st
    err name gid :
  get_record records new_id = None ->
  let added := add_record records new_id now user_photo garment_photo result_photo video
                          st err name gid in
  get_record (fst added) new_id = Some (snd added) /\
  (forall id', id' <> new_id -> get_record (fst added) id' = get_record records id') /\
  count_records (fst added) = count_records records + 1.
Proof.
  intros Hfresh added. subst added. unfold add_record. simpl. split; [|split].
  - rewrite get_record_app, Hfresh. simpl. now rewrite decide_True.
  - intros id' Hne. rewrite get_record_app. simpl.
    destruct (get_record records id'); [reflexivity|]. now rewrite decide_False.
  - unfold count_records. rewrite length_app. simpl. lia.
Qed.

Lemma add_then_get_witness :
  get_record (fst (add_record [] "r-1" "2025-01-01 10:00:00" "u.jpg" "g.jpg" None None
                     "processing" None (Some "Bob") (Some "g1"))) "r-1"
    = Some (mkRecord "r-1" "2025-01-01 10:00:00" "u.jpg" "g.jpg" None None "processing" None
                     (Some "Bob") (Some "g1")).
Proof.
  apply (add_then_get [] "r-1" "2025-01-01 10:00:00" "u.jpg" "g.jpg" None None
           "processing" None (Some "Bob") (Some "g1")).
  reflexivity.
Defined.

Lemma get_record_filter records id id' :
  get_record (filter (fun r => record_id r <> id) records) id' =
    if decide (id' = id) then None else get_record records id'.
Proof.
  induction records as [|r rest IH]; simpl.
  - now destruct (decide (id' = id)).
  - rewrite filter_cons. destruct (decide (record_id r <> id)) as [Hk|Hk]; simpl.
    + destruct (decide (record_id r = id')) as [<-|Hne].
      * now rewrite decide_False by congruence.
      * exact IH.
    + apply dec_stable in Hk. rewrite IH.
      destruct (decide (id' = id)) as [->|Hne]; [reflexivity|].
      now rewrite decide_False by congruence.
Qed.

Lemma get_record_None records id :
  get_record records id = None <-> Forall (fun r => record_id r <> id) records.
Proof.
  induction records as [|r rest IH]; simpl.
  - split; [constructor|reflexivity].
  - destruct (decide (record_id r = id)) as [Hid|Hid].
    + split; [discriminate|]. intros H. apply Forall_cons in H as [H _]. contradiction.
    + rewrite IH. split; [now constructor|]. intros H. now apply Forall_cons in H as [_ H].
Qed.

Lemma filter_all_length records id :
  length (filter (fun r => record_id r <> id) records) = length records <->
  Forall (fun r => record_id r <> id) records.
Proof.
  induction records as [|r rest IH]; simpl.
  - split; [constructor|reflexivity].
  - rewrite filter_cons.
    pose proof (length_filter (fun r => record_id r <> id) rest) as Hle.
    destruct (decide (record_id r <> id)) as [Hk|Hk]; simpl.
    + split.
      * intros H. constructor; [exact Hk|]. apply IH. lia.
      * intros H. apply Forall_cons in H as [_ H]. apply IH in H. lia.
    + split; [lia|]. intros H. apply Forall_cons in H as [H _]. contradiction.
Qed.

(** X15. [delete_record] answers [True] exactly when a record with the id
    exists; afterwards no record has that id, whatever it answered, and the
    records with other ids are found as before. *)
Theorem delete_record_spec records id :
  (snd (delete_record records id) = true <-> get_record records id <> None) /\
  get_record (fst (delete_record records id)) id = None /\
  (forall id', id' <> id ->
     get_record (fst (delete_record records id)) id' = get_record records id').
Proof.
  unfold delete_record.
  pose proof (length_filter (fun r => record_id r <> id) records) as Hle.
  pose proof (filter_all_length records id) as Hall.
  destruct (length (filter (fun r => record_id r <> id) records) <? length records)%nat
    eqn:E; simpl.
  - apply Nat.ltb_lt in E. split; [|split].
    + split; [|reflexivity]. intros _ Hn. apply get_record_None in Hn.
      apply Hall in Hn. lia.
    + rewrite get_record_filter. now rewrite decide_True.
    + intros id' Hne. rewrite get_record_filter. now rewrite decide_False.
  - apply Nat.ltb_ge in E.
    assert (Hn : get_record records id = None).
    { apply get_record_None, Hall. lia. }
    split; [|split; [exact Hn|reflexivity]].
    split; [discriminate|]. intros H. contradiction.
Qed.

End HistoryFacts.

(** ** Facts about listing the history *)

Module ListingFacts.
Import History Routes.

Lemma ltb_false_leb x y : String.ltb x y = false <-> String.leb y x = true.
Proof.
  unfold String.ltb, String.leb. rewrite (String.compare_antisym y x).
  destruct (x ?= y)%string; simpl; split; congruence.
Qed.

Lemma ltb_true_flip x y : String.ltb x y = true -> String.ltb y x = false.
Proof.
  unfold String.ltb. rewrite (String.compare_antisym y x).
  destruct (x ?= y)%string; simpl; congruence.
Qed.

Lemma ltb_false_trans x y z :
  String.ltb x y = false -> String.ltb y z = false -> String.ltb x z = false.
Proof.
  rewrite !ltb_false_leb. intros Hyx Hzy.
  apply Is_true_true. apply Is_true_true in Hyx, Hzy.
  change (String.le z x). change (String.le y x) in Hyx. change (String.le z y) in Hzy.
  now transitivity y.
Qed.

Lemma insert_desc_perm r l : insert_desc r l ≡ₚ r :: l.
Proof.
  induction l as [|y l IH]; simpl; [reflexivity|].
  destruct (String.ltb (timestamp r) (timestamp y)); [|reflexivity].
  rewrite IH. apply Permutation_swap.
Qed.

Lemma sort_desc_perm l : sort_desc l ≡ₚ l.
Proof.
  induction l as [|x l IH]; simpl; [reflexivity|].
  change (insert_desc x (sort_desc l) ≡ₚ x :: l). now rewrite insert_desc_perm, IH.
Qed.

Lemma insert_desc_sorted r l :
  StronglySorted (fun a b => String.ltb (timestamp a) (timestamp b) = false) l ->
  StronglySorted (fun a b => String.ltb (timestamp a) (timestamp b) = false)
                 (insert_desc r l).
Proof.
  induction l as [|y l IH]; simpl; intros Hs.
  - repeat constructor.
  - apply StronglySorted_cons in Hs as [Hy Hs].
    destruct (String.ltb (timestamp r) (timestamp y)) eqn:E.
    + apply StronglySorted_cons. split; [|now apply IH].
      rewrite insert_desc_perm. constructor; [now apply ltb_true_flip|exact Hy].
    + apply StronglySorted_cons. split.
      * constructor; [exact E|]. eapply Forall_impl; [exact Hy|].
        intros z Hz. simpl in Hz. now apply (ltb_false_trans _ (timestamp y)).
      * apply StronglySorted_cons. now split.
Qed.

Lemma sort_desc_sorted l :
  StronglySorted (fun a b => String.ltb (timestamp a) (timestamp b) = false) (sort_desc l).
Proof.
  induction l as [|x l IH]; simpl; [constructor|].
  change (StronglySorted (fun a b => String.ltb (timestamp a) (timestamp b) = false)
            (insert_desc x (sort_desc l))).
  now apply insert_desc_sorted.
Qed.

(** X16. Without a limit and from offset 0, [list_records] returns all the
    stored records, each once, ordered so that no record is followed by one
    with a greater timestamp. *)
Theorem list_records_sorted records :
  list_records records None 0 ≡ₚ records /\
  StronglySorted (fun a b => String.ltb (timestamp a) (timestamp b) = false)
                 (list_records records None 0).
Proof.
  unfold list_records, py_slice_from, slice_index. simpl.
  assert (E : Z.to_nat (Z.min 0 (Z.of_nat (length (sort_desc records)))) = 0%nat) by lia.
  rewrite E. simpl. split; [apply sort_desc_perm|apply sort_desc_sorted].
Qed.

Lemma py_slice_lookup {A} (l : list A) (offset n : Z) (i : nat) :
  0 <= offset -> 0 <= n ->
  py_slice l offset (offset + n) !! i =
    if (Z.of_nat i <? n)%Z then l !! (Z.to_nat offset + i)%nat else None.
Proof.
  intros Ho Hn. unfold py_slice, slice_index.
  destruct (offset <? 0)%Z eqn:E1; [lia|].
  destruct (offset + n <? 0)%Z eqn:E2; [lia|].
  set (len := Z.of_nat (length l)).
  destruct (Z.of_nat i <? n)%Z eqn:E3.
  - apply Z.ltb_lt in E3.
    destruct (decide (offset + Z.of_nat i < len)) as [Hin|Hout].
    + rewrite lookup_take_lt by lia. rewrite lookup_drop. f_equal. lia.
    + rewrite (lookup_ge_None_2 l) by (subst len; lia).
      apply lookup_ge_None_2. rewrite length_take, length_drop. subst len. lia.
  - apply Z.ltb_ge in E3. apply lookup_ge_None_2.
    rewrite length_take, length_drop. subst len. lia.
Qed.

(** X17. For an offset and a limit that are not negative, entry [i] of
    [list_records] is entry [offset + i] of the records in descending
    timestamp order when [i] is below the limit, and there is no such entry
    otherwise: a page never holds more records than the limit. *)
Theorem list_records_page records (offset n : Z) (i : nat) :
  0 <= offset -> 0 <= n ->
  list_records records (Some n) offset !! i =
    if (Z.of_nat i <? n)%Z then list_records records None 0 !! (Z.to_nat offset + i)%nat
    else None.
Proof.
  intros Ho Hn. unfold list_records. rewrite py_slice_lookup by assumption.
  unfold py_slice_from, slice_index. simpl.
  assert (E : Z.to_nat (Z.min 0 (Z.of_nat (length (sort_desc records)))) = 0%nat) by lia.
  now rewrite E.
Qed.

Lemma list_records_page_witness :
  list_records [mkRecord "r-1" "2025-01-01 10:00:00" "u" "g" None None "success" None None None;
                mkRecord "r-2" "2025-01-02 09:30:00" "u" "g" None None "failed" None None None]
               (Some 1) 1 !! 0%nat
    = Some (mkRecord "r-1" "2025-01-01 10:00:00" "u" "g" None None "success" None None None).
Proof.
  rewrite (list_records_page _ 1 1 0%nat); [reflexivity|lia|lia].
Defined.

End ListingFacts.

(** ** Facts about the routes *)

Module RouteFacts.
Import TryOn TryOnFacts History Routes.

Lemma sort_desc_length records : length (sort_desc records) = length records.
Proof. apply Permutation_length, ListingFacts.sort_desc_perm. Qed.

Lemma ceil_div_le (t n k : Z) :
  0 < n -> ((t + n - 1) / n <= k <-> t <= k * n).
Proof.
  intros Hn. pose proof (Z.div_mod (t + n - 1) n ltac:(lia)) as Hd.
  pose proof (Z.mod_pos_bound (t + n - 1) n Hn) as Hm.
  split; intros H; nia.
Qed.

(** X18. For a logged-in administrator, a page number and a page size of at
    least 1, [list_history] reports the number of stored records and the
    number of pages needed for them (the least number of pages of that size
    that hold them all, 0 for an empty history); the page it returns holds
    at most [per_page] records and is empty exactly when the page number is
    beyond the last page. *)
Theorem list_history_pages records page per_page :
  1 <= page -> 1 <= per_page ->
  exists p,
    list_history true records page per_page = Listed p /\
    total p = Z.of_nat (length records) /\
    total p <= total_pages p * per_page /\
    (forall k, 0 <= k -> total p <= k * per_page -> total_pages p <= k) /\
    (length (page_records p) <= Z.to_nat per_page)%nat /\
    (page_records p = [] <-> total_pages p < page).
Proof.
  intros Hp Hn. unfold list_history, count_records. simpl.
  set (t := Z.of_nat (length records)).
  set (listed := list_records records (Some per_page) ((page - 1) * per_page)).
  assert (Hlen : (length listed <= Z.to_nat per_page)%nat).
  { subst listed. unfold list_records, py_slice, slice_index.
    assert (0 <= (page - 1) * per_page) by nia.
    destruct ((page - 1) * per_page <? 0)%Z eqn:E1; [lia|].
    destruct ((page - 1) * per_page + per_page <? 0)%Z eqn:E2; [lia|].
    rewrite length_take. lia. }
  assert (Hempty : listed = [] <-> t <= (page - 1) * per_page).
  { subst listed. unfold list_records.
    assert (Hoff : 0 <= (page - 1) * per_page) by nia.
    pose proof (ListingFacts.py_slice_lookup (sort_desc records) ((page - 1) * per_page)
                  per_page 0%nat ltac:(nia) ltac:(lia)) as Hl.
    assert (E3 : (Z.of_nat 0 <? per_page)%Z = true) by (apply Z.ltb_lt; lia).
    rewrite E3 in Hl. rewrite Nat.add_0_r in Hl.
    split.
    - intros He. rewrite He in Hl. simpl in Hl. symmetry in Hl.
      apply lookup_ge_None_1 in Hl. rewrite sort_desc_length in Hl. subst t. lia.
    - intros Ht.
      rewrite (lookup_ge_None_2 (sort_desc records)) in Hl
        by (rewrite sort_desc_length; subst t; lia).
      destruct (py_slice _ _ _); [reflexivity|discriminate Hl]. }
  destruct (0 <? t)%Z eqn:Et.
  - apply Z.ltb_lt in Et. rewrite decide_False by lia.
    eexists. split; [reflexivity|]. cbn [total total_pages page_records].
    split; [reflexivity|].
    split; [apply ceil_div_le; lia|]. split; [intros k _ Hk; apply ceil_div_le; lia|].
    split; [exact Hlen|].
    transitivity (t <= (page - 1) * per_page); [exact Hempty|].
    pose proof (ceil_div_le t per_page (page - 1) ltac:(lia)) as Hc. lia.
  - apply Z.ltb_ge in Et. assert (t = 0) as Ht by (subst t; lia).
    eexists. split; [reflexivity|]. cbn [total total_pages page_records]. rewrite Ht.
    split; [reflexivity|]. split; [lia|]. split; [intros; lia|].
    split; [exact Hlen|].
    transitivity (t <= (page - 1) * per_page); [exact Hempty|].
    rewrite Ht. split; [intros; lia|intros; nia].
Qed.

Lemma list_history_pages_witness :
  exists p,
    list_history true
      [mkRecord "r-1" "2025-01-01 10:00:00" "u" "g" None None "success" None None None;
       mkRecord "r-2" "2025-01-02 09:30:00" "u" "g" None None "failed" None None None;
       mkRecord "r-3" "2025-01-03 08:00:00" "u" "g" None None "success" None None None]
      2 2 = Listed p /\
    total p = 3 /\ total p <= total_pages p * 2 /\
    (forall k, 0 <= k -> total p <= k * 2 -> total_pages p <= k) /\
    (length (page_records p) <= 2)%nat /\
    (page_records p = [] <-> total_pages p < 2).
Proof.
  apply (list_history_pages
           [mkRecord "r-1" "2025-01-01 10:00:00" "u" "g" None None "success" None None None;
            mkRecord "r-2" "2025-01-02 09:30:00" "u" "g" None None "failed" None None None;
            mkRecord "r-3" "2025-01-03 08:00:00" "u" "g" None None "success" None None None]
           2 2); lia.
Defined.

Lemma video_poll_has_no_video_url svc w now tid reply dl :
  dict_get (snd (Video.poll_video_task svc w now tid reply dl)) "video_url" = None.
Proof.
  unfold Video.poll_video_task.
  repeat match goal with
         | |- context [if ?b then _ else _] => destruct b
         | |- context [match ?x with _ => _ end] => destruct x
         end; reflexivity.
Qed.

(** X19. The [poll_video] route never changes the history: it looks for the
    key [video_url] in the answer of the poller, which puts the path of a
    completed video under [output_path], so no record ever receives a video
    path through this route. The answer and the effects on the outside are
    those of the poller. *)
Theorem poll_video_leaves_history svc w now session records tid reply dl :
  poll_video svc w now session records tid reply dl
    = (fst (Video.poll_video_task svc w now tid reply dl), records,
       snd (Video.poll_video_task svc w now tid reply dl)).
Proof.
  unfold poll_video.
  pose proof (video_poll_has_no_video_url svc w now tid reply dl) as H.
  destruct (Video.poll_video_task svc w now tid reply dl) as [w' result]. simpl in *.
  rewrite H. simpl. now destruct (decide _).
Qed.

Lemma dict_get_error_result msg :
  dict_get (error_result msg) "status" = Some "error" /\
  dict_get (error_result msg) "message" = Some msg /\
  dict_get (error_result msg) "output" = None /\
  Video.dict_get_default (error_result msg) "message" "換髮型失敗" = Some msg.
Proof. repeat split; reflexivity. Qed.

Lemma dict_get_ok_result out :
  dict_get (ok_result out) "status" = Some "ok" /\
  dict_get (ok_result out) "output" = Some out.
Proof. split; reflexivity. Qed.

Lemma poll_try_on_cases st session records cmp sid :
  let status := snd (get_result st sid) in
  let rid := if_truthy (session !! ("record_id_" +:+ sid)) in
  exists records' body,
    poll_try_on st session records cmp sid
      = (fst (get_result st sid), records', body,
         if decide (dict_get status "status" = Some "error") then 500 else 200) /\
    dict_get body "status" = dict_get status "status" /\
    dict_get body "message" = dict_get status "message" /\
    dict_get body "output" = dict_get status "output" /\
    records' =
      match rid with
      | Some id =>
          if decide (dict_get status "status" = Some "ok") then
            match if_truthy (dict_get status "output") with
            | Some out => fst (update_record records id (Some out) None (Some "success") None)
            | None => records
            end
          else if decide (dict_get status "status" = Some "error") then
            fst (update_record records id None None (Some "failed")
                   (Video.dict_get_default status "message" "換髮型失敗"))
          else records
      | None => records
      end.
Proof.
  intros status rid. subst status rid. unfold poll_try_on.
  assert (Hmiss : dict_get missing_result "status" = Some "error") by reflexivity.
  assert (Hpend : dict_get pending_result "status" = Some "pending") by reflexivity.
  destruct (get_result_cases st sid) as
    [[-> H]|[(Hsid & msg & He & H)|[(Hsid & He & out & Ho & H)|
      [(Hsid & He & Ho & Hf & H)|(Hsid & He & Ho & Hf & H)]]]];
    rewrite H; cbn [fst snd];
    try (destruct (dict_get_error_result msg) as (D1 & D2 & D3 & D4));
    try (destruct (dict_get_ok_result out) as (D1 & D2));
    try (destruct (dict_get_ok_result ("/static/outputs/" +:+ (sid +:+ ".jpg"))) as (D1 & D2));
    rewrite ?Hmiss, ?Hpend, ?D1, ?D2, ?D4;
    destruct (if_truthy (session !! _)) as [id|];
    repeat match goal with
           | |- context [decide ?P] => destruct (decide P); try congruence
           end;
    unfold if_truthy;
    repeat match goal with
           | |- context [truthy ?x] => destruct (truthy x)
           | |- context [match session !! ?k with _ => _ end] => destruct (session !! k)
           | |- context [match cmp with _ => _ end] => destruct cmp
           end;
    eexists _, _; repeat split; reflexivity.
Qed.

(** X21. When the browser session holds the id of a history record for the
    polled try-on session, the route brings that record up to date: on an
    [error] answer the record becomes [failed] with the message of the
    answer, on an [ok] answer it becomes [success] with the output as result
    path; in both cases the record keeps its id, timestamp, photo paths,
    garment fields and video path, and the other records are untouched. *)
Theorem poll_try_on_updates_record st session records cmp sid rid r :
  sid <> "" ->
  session !! ("record_id_" +:+ sid) = Some rid -> rid <> "" ->
  get_record records rid = Some r ->
  let records' := snd (fst (fst (poll_try_on st session records cmp sid))) in
  (forall msg, snd (get_result st sid) = error_result msg ->
     get_record records' rid = Some (merge r None None (Some "failed") (Some msg))) /\
  (forall out, out <> "" -> snd (get_result st sid) = ok_result out ->
     get_record records' rid = Some (merge r (Some out) None (Some "success") None)) /\
  length records' = length records /\
  (forall id', id' <> rid -> get_record records' id' = get_record records id').
Proof.
  intros Hsid Hs Hrid Hr records'. subst records'.
  destruct (poll_try_on_cases st session records cmp sid) as (records' & body & E & _ & _ & _ & H4).
  rewrite E. simpl.
  assert (Hid : if_truthy (session !! ("record_id_" +:+ sid)) = Some rid)
    by (rewrite Hs; now apply if_truthy_Some).
  rewrite Hid in H4.
  assert (Hupd : forall a b c d,
            get_record (fst (update_record records rid a b c d)) rid = Some (merge r a b c d) /\
            length (fst (update_record records rid a b c d)) = length records /\
            (forall id', id' <> rid ->
               get_record (fst (update_record records rid a b c d)) id' = get_record records id')).
  { intros a b c d. destruct (HistoryFacts.update_record_spec records rid a b c d) as (U1 & U2 & U3).
    rewrite Hr in U1. destruct U1 as [_ U1]. now repeat split. }
  split; [|split].
  - intros msg Hm. rewrite Hm in H4.
    destruct (dict_get_error_result msg) as (D1 & _ & _ & D4). rewrite D1, D4 in H4.
    rewrite decide_False in H4 by discriminate.
    rewrite decide_True in H4 by reflexivity. rewrite H4. apply Hupd.
  - intros out Hout Ho. rewrite Ho in H4.
    destruct (dict_get_ok_result out) as (D1 & D2). rewrite D1, D2 in H4.
    rewrite decide_True in H4 by reflexivity.
    assert (Ht : if_truthy (Some out) = Some out) by now apply if_truthy_Some.
    rewrite Ht in H4. rewrite H4. apply Hupd.
  - rewrite H4.
    destruct (decide (dict_get (snd (get_result st sid)) "status" = Some "ok")).
    + destruct (if_truthy _); [apply Hupd|]. split; [reflexivity|intros; reflexivity].
    + destruct (decide _); [apply Hupd|]. split; [reflexivity|intros; reflexivity].
Qed.

Lemma poll_try_on_updates_record_witness :
  get_record
    (snd (fst (fst (poll_try_on (store Scenario.race_system)
                      {["record_id_tryon_1700000000000" := "r-1"]}
                      [mkRecord "r-1" "2025-01-01 10:00:00" "u.jpg" "g.jpg" None None
                                "processing" None (Some "Bob") (Some "g1")]
                      NoUrls Scenario.sid)))) "r-1"
    = Some (mkRecord "r-1" "2025-01-01 10:00:00" "u.jpg" "g.jpg" None None
                     "failed" (Some "try-on failed") (Some "Bob") (Some "g1")).
Proof.
  pose proof (poll_try_on_updates_record (store Scenario.race_system)
                {["record_id_tryon_1700000000000" := "r-1"]}
                [mkRecord "r-1" "2025-01-01 10:00:00" "u.jpg" "g.jpg" None None
                          "processing" None (Some "Bob") (Some "g1")]
                NoUrls Scenario.sid "r-1"
                (mkRecord "r-1" "2025-01-01 10:00:00" "u.jpg" "g.jpg" None None
                          "processing" None (Some "Bob") (Some "g1"))) as H.
  destruct H as [H _].
  - discriminate.
  - vm_compute. reflexivity.
  - discriminate.
  - reflexivity.
  - apply (H "try-on failed"). vm_compute. reflexivity.
Defined.

End RouteFacts.

(** ** Facts about the reload of the settings *)

Module SettingsFacts.
Import Settings.

Lemma or_opt_idem x old : or_opt x (or_opt x old) = or_opt x old.
Proof. unfold or_opt. now destruct (if_truthy x). Qed.

Lemma py_or_idem x old : py_or x (py_or x old) = py_or x old.
Proof. unfold py_or. destruct x as [v|]; [|reflexivity]. now destruct (truthy v). Qed.

Lemma or_opt_truthy x old :
  truthy_opt old = true -> truthy_opt (or_opt x old) = true.
Proof.
  intros Ho. unfold or_opt. destruct (if_truthy x) as [v|] eqn:E; [|exact Ho].
  apply if_truthy_Some in E as [_ Hv]. simpl. now apply truthy_true.
Qed.

(** X22. Reloading twice in succession against the same file is the same as
    reloading once: the second call changes nothing, whether the first one
    took the file over, skipped it, or stopped at a duration it could not
    read. *)
Theorem reload_twice s fs :
  _reload_settings_if_changed (_reload_settings_if_changed s fs) fs
    = _reload_settings_if_changed s fs.
Proof.
  destruct (if_truthy (settings_path s)) as [path|] eqn:Ep.
  2:{ assert (R : _reload_settings_if_changed s fs = s)
        by (unfold _reload_settings_if_changed; now rewrite Ep).
      now rewrite !R. }
  destruct (fs path) as [file|] eqn:Ef.
  2:{ assert (R : _reload_settings_if_changed s fs = s)
        by (unfold _reload_settings_if_changed; now rewrite Ep, Ef).
      now rewrite !R. }
  destruct (mtime_known (settings_mtime s) && (mtime file <=? default 0 (settings_mtime s))%Z)
    eqn:Em.
  { assert (R : _reload_settings_if_changed s fs = s)
      by (unfold _reload_settings_if_changed; now rewrite Ep, Ef, Em).
    now rewrite !R. }
  destruct (content file) as [|data] eqn:Ec.
  { assert (R : _reload_settings_if_changed s fs = s)
      by (unfold _reload_settings_if_changed; now rewrite Ep, Ef, Em, Ec).
    now rewrite !R. }
  destruct (f_duration data) as [| |n] eqn:Ed.
  - assert (R : _reload_settings_if_changed s fs
                = mkSettings (or_opt (f_access_key data) (access_key s))
                             (or_opt (f_secret_key data) (secret_key s))
                             (py_or (f_model data) (model s)) (py_or (f_mode data) (mode s))
                             (duration s) (settings_path s) (Some (mtime file)))
      by (unfold _reload_settings_if_changed; now rewrite Ep, Ef, Em, Ec, Ed).
    rewrite !R. unfold _reload_settings_if_changed. simpl. rewrite Ep, Ef. simpl.
    destruct (mtime file =? 0)%Z eqn:E0; simpl.
    + rewrite Ec, Ed. now rewrite !or_opt_idem, !py_or_idem.
    + now rewrite Z.leb_refl.
  - assert (R : _reload_settings_if_changed s fs
                = mkSettings (or_opt (f_access_key data) (access_key s))
                             (or_opt (f_secret_key data) (secret_key s))
                             (py_or (f_model data) (model s)) (py_or (f_mode data) (mode s))
                             (duration s) (settings_path s) (settings_mtime s))
      by (unfold _reload_settings_if_changed; now rewrite Ep, Ef, Em, Ec, Ed).
    rewrite !R. unfold _reload_settings_if_changed. simpl. rewrite Ep, Ef, Em, Ec, Ed.
    now rewrite !or_opt_idem, !py_or_idem.
  - assert (R : _reload_settings_if_changed s fs
                = mkSettings (or_opt (f_access_key data) (access_key s))
                             (or_opt (f_secret_key data) (secret_key s))
                             (py_or (f_model data) (model s)) (py_or (f_mode data) (mode s))
                             n (settings_path s) (Some (mtime file)))
      by (unfold _reload_settings_if_changed; now rewrite Ep, Ef, Em, Ec, Ed).
    rewrite !R. unfold _reload_settings_if_changed. simpl. rewrite Ep, Ef. simpl.
    destruct (mtime file =? 0)%Z eqn:E0; simpl.
    + rewrite Ec, Ed. now rewrite !or_opt_idem, !py_or_idem.
    + now rewrite Z.leb_refl.
Qed.

(** X23. A reload never removes credentials: when both keys are set before
    the call, both are set after it, whatever the file holds. *)
Theorem reload_keeps_keys s fs :
  has_keys s = true -> has_keys (_reload_settings_if_changed s fs) = true.
Proof.
  unfold has_keys. intros H. apply andb_true_iff in H as [Ha Hs].
  unfold _reload_settings_if_changed.
  repeat match goal with
         | |- context [match ?x with _ => _ end] => destruct x
         end; simpl; rewrite ?Ha, ?Hs, ?or_opt_truthy; auto.
Qed.

Lemma reload_keeps_keys_witness :
  has_keys (_reload_settings_if_changed
              (mkSettings (Some "ak") (Some "sk") "kling-v1" "std" 5
                          (Some "data/settings.json") (Some 100))
              (fun _ => Some (mkSettingsFile 200
                 (Object (mkFileData (Some "") None (Some "kling-v2-5-turbo") None
                                     (DurationInt 10)))))) = true.
Proof.
  apply reload_keeps_keys. reflexivity.
Defined.

(** X24. A reload changes the settings only when the settings path is set,
    the file exists, it holds a JSON object, and either no modification time
    is recorded or the file is newer than the recorded one: a missing,
    unreadable or unchanged file is never taken over. *)
Theorem reload_only_from_newer_file s fs :
  _reload_settings_if_changed s fs <> s ->
  exists path file data,
    settings_path s = Some path /\ fs path = Some file /\ content file = Object data /\
    (mtime_known (settings_mtime s) = false \/
     exists m, settings_mtime s = Some m /\ m < mtime file).
Proof.
  unfold _reload_settings_if_changed. intros H.
  destruct (if_truthy (settings_path s)) as [path|] eqn:Ep; [|now destruct H].
  apply if_truthy_Some in Ep as [Ep _].
  destruct (fs path) as [file|] eqn:Ef; [|now destruct H].
  destruct (mtime_known (settings_mtime s) && (mtime file <=? default 0 (settings_mtime s))%Z)
    eqn:Em; [now destruct H|].
  destruct (content file) as [|data] eqn:Ec; [now destruct H|].
  exists path, file, data. repeat split; try assumption.
  apply andb_false_iff in Em as [Em|Em]; [now left|].
  destruct (settings_mtime s) as [m|] eqn:E; [|now left].
  right. exists m. split; [reflexivity|]. simpl in Em. apply Z.leb_gt in Em. exact Em.
Qed.

Lemma reload_only_from_newer_file_witness :
  exists path file data,
    Some "data/settings.json" = Some path /\
    (fun _ : string => Some (mkSettingsFile 200
        (Object (mkFileData None None (Some "kling-v2-5-turbo") None (DurationInt 10)))))
      path = Some file /\
    content file = Object data /\
    (mtime_known (Some 100) = false \/ exists m, Some 100 = Some m /\ m < mtime file).
Proof.
  apply (reload_only_from_newer_file
           (mkSettings (Some "ak") (Some "sk") "kling-v1" "std" 5
                       (Some "data/settings.json") (Some 100))
           (fun _ => Some (mkSettingsFile 200
              (Object (mkFileData None None (Some "kling-v2-5-turbo") None (DurationInt 10)))))).
  vm_compute. discriminate.
Defined.

End SettingsFacts.

(** ** Facts about public URLs *)

Module WebUrlFacts.
Import WebUrl.

Lemma append_cons c a x : String c a +:+ x = String c (a +:+ x).
Proof. reflexivity. Qed.

Lemma append_empty_l x : "" +:+ x = x.
Proof. reflexivity. Qed.

Lemma append_assoc a b c : (a +:+ b) +:+ c = a +:+ (b +:+ c).
Proof. induction a as [|x a IH]; [reflexivity|]. rewrite !append_cons. now rewrite IH. Qed.

Lemma not_in_after_last sep s : py_in sep s = false -> after_last sep s = None.
Proof.
  induction s as [|c s IH]; [reflexivity|]. intros H.
  change (String.prefix sep (String c s) || py_in sep s = false) in H.
  apply orb_false_iff in H as [Hp Hi].
  change (after_last sep (String c s))
    with (match after_last sep s with
          | Some t => Some t
          | None => if String.prefix sep (String c s)
                    then Some (string_drop (String.length sep) (String c s)) else None
          end).
  now rewrite (IH Hi), Hp.
Qed.

Lemma prefix_drop sep : forall s,
  String.prefix sep s = true -> s = sep +:+ string_drop (String.length sep) s.
Proof.
  induction sep as [|c sep IH]; intros s H; [reflexivity|].
  destruct s as [|d s]; [discriminate H|]. simpl in H.
  destruct (Ascii.ascii_dec c d) as [->|]; [|discriminate H].
  rewrite append_cons. simpl. f_equal. now apply IH.
Qed.

Lemma after_last_Some sep s t :
  after_last sep s = Some t -> exists a, s = a +:+ sep +:+ t.
Proof.
  revert t. induction s as [|c s IH]; intros t H; [discriminate H|].
  change (match after_last sep s with
          | Some t => Some t
          | None => if String.prefix sep (String c s)
                    then Some (string_drop (String.length sep) (String c s)) else None
          end = Some t) in H.
  destruct (after_last sep s) as [u|].
  - injection H as ->. destruct (IH t eq_refl) as [a ->]. now exists (String c a).
  - destruct (String.prefix sep (String c s)) eqn:E; [|discriminate H].
    injection H as <-. exists "". rewrite append_empty_l. now apply prefix_drop.
Qed.

Lemma after_last_static a t :
  py_in "/static/" ("static/" +:+ t) = false ->
  after_last "/static/" (a +:+ "/static/" +:+ t) = Some t.
Proof.
  intros H. induction a as [|c a IH].
  - rewrite append_empty_l.
    change ("/static/" +:+ t) with (String "/" ("static/" +:+ t)).
    change (after_last "/static/" (String "/" ("static/" +:+ t)))
      with (match after_last "/static/" ("static/" +:+ t) with
            | Some u => Some u
            | None => if String.prefix "/static/" (String "/" ("static/" +:+ t))
                      then Some (string_drop 8 (String "/" ("static/" +:+ t))) else None
            end).
    rewrite (not_in_after_last _ _ H).
    assert (P : String.prefix "/static/" (String "/" ("static/" +:+ t)) = true)
      by (destruct t; reflexivity).
    rewrite P. reflexivity.
  - rewrite append_cons.
    change (after_last "/static/" (String c (a +:+ "/static/" +:+ t)))
      with (match after_last "/static/" (a +:+ "/static/" +:+ t) with
            | Some u => Some u
            | None => if String.prefix "/static/" (String c (a +:+ "/static/" +:+ t))
                      then Some (string_drop 8 (String c (a +:+ "/static/" +:+ t)))
                      else None
            end).
    now rewrite IH.
Qed.

Lemma append_nonempty_r a b : b <> "" -> a +:+ b <> "".
Proof. destruct a; [now rewrite append_empty_l|discriminate]. Qed.

(** X25. A path that has something after its last [/static/] is turned into
    [/static/] followed by that rest, whatever comes before: a file under a
    static directory gets its public URL, and a public URL is left as it
    is. *)
Theorem to_web_url_under_static path_name a t :
  t <> "" ->
  py_in "/static/" ("static/" +:+ t) = false ->
  _to_web_url path_name (Some (a +:+ "/static/" +:+ t)) = Some ("/static/" +:+ t).
Proof.
  intros Ht Hin. unfold _to_web_url.
  assert (Hne : a +:+ "/static/" +:+ t <> "").
  { apply append_nonempty_r. discriminate. }
  assert (E : if_truthy (Some (a +:+ "/static/" +:+ t)) = Some (a +:+ "/static/" +:+ t))
    by now apply if_truthy_Some.
  rewrite E. unfold rpartition_tail. rewrite (after_last_static a t Hin). simpl.
  apply truthy_true in Ht. now rewrite Ht.
Qed.

Lemma to_web_url_under_static_witness :
  _to_web_url (fun p => p) (Some "/srv/demo/apps/web/static/outputs/gen_1700000004321.jpg")
    = Some "/static/outputs/gen_1700000004321.jpg".
Proof.
  apply (to_web_url_under_static (fun p => p) "/srv/demo/apps/web"
           "outputs/gen_1700000004321.jpg").
  - discriminate.
  - reflexivity.
Defined.

(** X26. The file-name fallback of [_to_web_url] is taken only for a path
    that ends with [/static/]. Every other non-empty path gives a URL that
    starts with [/static/]; in particular a path in which [/static/] does
    not occur gives [/static/] followed by the whole path, not its file
    name. *)
Theorem to_web_url_fallback path_name p :
  p <> "" ->
  (forall a, p = a +:+ "/static/" -> _to_web_url path_name (Some p) = Some (path_name p)) /\
  ((forall a, p <> a +:+ "/static/") ->
   exists tail, tail <> "" /\ _to_web_url path_name (Some p) = Some ("/static/" +:+ tail)) /\
  (py_in "/static/" p = false ->
   _to_web_url path_name (Some p) = Some ("/static/" +:+ p)).
Proof.
  intros Hp. unfold _to_web_url.
  assert (E : if_truthy (Some p) = Some p) by now apply if_truthy_Some.
  rewrite E. unfold rpartition_tail. split; [|split].
  - intros a ->.
    assert (Ha : after_last "/static/" (a +:+ "/static/" +:+ "") = Some "")
      by now apply after_last_static.
    assert (Hs : "/static/" +:+ "" = "/static/") by reflexivity.
    rewrite Hs in Ha. rewrite Ha. reflexivity.
  - intros Hend. destruct (after_last "/static/" p) as [t|] eqn:Ea; simpl.
    + destruct (truthy t) eqn:Et.
      * exists t. split; [now apply truthy_true|reflexivity].
      * apply truthy_false in Et. subst t.
        apply after_last_Some in Ea as [a Ha]. exfalso. apply (Hend a). exact Ha.
    + exists p. split; [exact Hp|]. apply truthy_true in Hp. now rewrite Hp.
  - intros Hin. rewrite (not_in_after_last _ _ Hin). simpl.
    apply truthy_true in Hp. now rewrite Hp.
Qed.

Lemma to_web_url_fallback_witness :
  _to_web_url (fun p => p) (Some "/tmp/uploads/user_1.jpg")
    = Some "/static//tmp/uploads/user_1.jpg".
Proof.
  apply (to_web_url_fallback (fun p => p) "/tmp/uploads/user_1.jpg").
  - discriminate.
  - reflexivity.
Defined.

End WebUrlFacts.

(** ** Facts about the start route *)

Module StartFacts.
Import TryOn History Routes StartRoute Job.

Lemma start_advanced_cases st env req :
  (exists msg, start_tryon_advanced st env req = (st, None, start_error msg)) \/
  start_tryon_advanced st env req
    = (set_error st (new_session_id env) "Gemini client unavailable", None,
       py_dict [("session_id", Some (new_session_id env)); ("status", Some "error");
                ("message", Some "Gemini client unavailable")]) \/
  (exists j preview, (j = None \/ j = Some (new_session_id env)) /\
     start_tryon_advanced st env req = (st, j, start_processing (new_session_id env) preview)).
Proof.
  unfold start_tryon_advanced, _start_tryon_klingai.
  repeat match goal with
         | |- context [if ?b then _ else _] => destruct b
         | |- context [match ?x with _ => _ end] => destruct x
         end;
    first [ left; eexists; reflexivity
          | right; left; reflexivity
          | right; right; eexists _, _; split; [|reflexivity]; auto ].
Qed.

Lemma start_try_on_cases demo_path st env session records garments files gid note val
    new_id now :
  let out := start_try_on demo_path st env session records garments files gid note val
                          new_id now in
  let sid := new_session_id env in
  (exists code msg,
     ((code = 400 /\ if_truthy (session !! "user_photo_path") = None) \/
      (code = 404 /\ if_truthy (session !! "user_photo_path") <> None)) /\
     out = (st, None, session, records, Failure code (Some msg))) \/
  (exists photo g msg,
     if_truthy (session !! "user_photo_path") = Some photo /\ is_valid val = false /\
     out = (st, None, session,
            (records ++ [mkRecord new_id now photo (demo_path (Garments.image_path g))
                           None None "failed" (Some ("照片驗證失敗：" +:+ msg))
                           (Some (Garments.name g)) (Some gid)])%list,
            Failure 400 (Some msg))) \/
  (exists photo g st' msg,
     (st' = st \/ st' = set_error st sid "Gemini client unavailable") /\
     out = (st', None, session,
            (records ++ [mkRecord new_id now photo (demo_path (Garments.image_path g))
                           None None "failed" (Some msg)
                           (Some (Garments.name g)) (Some gid)])%list,
            Failure 500 (Some msg))) \/
  (exists photo g j preview,
     (j = None \/ j = Some sid) /\
     out = (st, j,
            <["record_id_" +:+ sid := new_id]> (<["last_tryon_session" := sid]> session),
            (records ++ [mkRecord new_id now photo (demo_path (Garments.image_path g))
                           None None "processing" None
                           (Some (Garments.name g)) (Some gid)])%list,
            Accepted (start_processing sid preview))).
Proof.
  intros out sid. subst out sid. unfold start_try_on.
  destruct (if_truthy (session !! "user_photo_path")) as [photo|];
    [|left; eexists _, _; split; [left; split|]; reflexivity].
  destruct (Garments.get_garment garments gid) as [g|];
    [|left; eexists _, _; split; [right; split; [reflexivity|discriminate]|reflexivity]].
  destruct (encode_as_data_url files photo) as [exc|user_url];
    [left; eexists _, _; split; [right; split; [reflexivity|discriminate]|reflexivity]|].
  destruct (encode_as_data_url files (demo_path (Garments.image_path g))) as [exc|garment_url];
    [left; eexists _, _; split; [right; split; [reflexivity|discriminate]|reflexivity]|].
  destruct (is_valid val); cbn [negb];
    [|right; left; eexists _, _, _; repeat split; reflexivity].
  right; right.
  destruct (start_advanced_cases st env
              (mkRequest user_url (Some garment_url) (if_truthy (Some note))))
    as [[msg H]|[H|(j & preview & Hj & H)]]; rewrite H; cbv beta iota zeta.
  - assert (D : dict_get (start_error msg) "status" = Some "error") by reflexivity.
    assert (M : Video.dict_get_default (start_error msg) "message"
                  "換髮型服務目前無法使用。" = Some msg) by reflexivity.
    rewrite decide_True by exact D. rewrite M.
    left. exists photo, g, st, msg. split; [now left|reflexivity].
  - rewrite decide_True by reflexivity.
    left. eexists photo, g, _, _. split; [right; reflexivity|reflexivity].
  - assert (D : dict_get (start_processing (new_session_id env) preview) "status"
                  = Some "processing") by reflexivity.
    assert (S : dict_get (start_processing (new_session_id env) preview) "session_id"
                  = Some (new_session_id env)) by reflexivity.
    rewrite decide_False by (rewrite D; discriminate). rewrite S.
    right. exists photo, g, j, preview. split; [exact Hj|reflexivity].
Qed.




Lemma get_result_after_job st sid o :
  sid <> "" ->
  match produced o with
  | Some out =>
      out <> "" /\
      (if_truthy (session_errors st !! sid) = None ->
       snd (get_result (_bg_job st sid o) sid) = ok_result out)
  | None =>
      exists msg, msg <> "" /\ snd (get_result (_bg_job st sid o) sid) = error_result msg
  end.
Proof.
  intros Hsid. pose proof (JobFacts.bg_job_produced st sid o) as H.
  destruct (produced o) as [out|].
  - destruct H as [Hout ->]. split; [exact Hout|]. intros He.
    rewrite (TryOnFacts.get_result_memo (set_output st sid out) sid out);
      [reflexivity|assumption|exact He|apply lookup_insert_eq].
  - destruct H as (msg & Hmsg & ->). exists msg. split; [exact Hmsg|].
    rewrite (TryOnFacts.get_result_error (set_error st sid msg) sid msg);
      [reflexivity|assumption|apply lookup_insert_eq|exact Hmsg].
Qed.

(** X28. From the start of a try-on to its record. When the start route
    accepts a request and starts a thread, and the record id it draws is
    fresh, then the first poll after the thread has finished brings the
    record of this request to its final state: [success] with the output of
    the thread as result path, provided no error was recorded under the same
    session id before, and [failed] with the non-empty message of the thread
    otherwise. The history holds one record more than before the start. *)
Theorem start_job_poll demo_path st env session records garments files gid note val
    new_id now st1 j session1 records1 result o cmp :
  new_id <> "" ->
  get_record records new_id = None ->
  start_try_on demo_path st env session records garments files gid note val new_id now
    = (st1, Some j, session1, records1, Accepted result) ->
  let sid := new_session_id env in
  let records2 := snd (fst (fst (poll_try_on (_bg_job st1 j o) session1 records1 cmp sid))) in
  j = sid /\
  length records2 = S (length records) /\
  match produced o with
  | Some out =>
      if_truthy (session_errors st !! sid) = None ->
      exists r, get_record records2 new_id = Some r /\ status r = "success" /\
                result_photo_path r = Some out /\ error_message r = None
  | None =>
      exists r msg, msg <> "" /\ get_record records2 new_id = Some r /\
                    status r = "failed" /\ error_message r = Some msg /\
                    result_photo_path r = None
  end.
Proof.
  intros Hid Hfresh Hstart sid records2. subst records2.
  assert (Hsid : sid <> "") by apply TryOnFacts.new_session_id_nonempty.
  destruct (start_try_on_cases demo_path st env session records garments files gid note val
              new_id now)
    as [(code & msg & Hc & E)|[(photo & g & msg & _ & _ & E)|
        [(photo & g & st' & msg & Hst & E)|(photo & g & j' & preview & Hj & E)]]];
    rewrite E in Hstart; try discriminate Hstart.
  injection Hstart as <- -> <- <- <-. clear E.
  destruct Hj as [Hj|Hj]; [discriminate Hj|]. injection Hj as ->. fold sid.
  split; [reflexivity|].
  set (r0 := mkRecord new_id now photo (demo_path (Garments.image_path g)) None None
                      "processing" None (Some (Garments.name g)) (Some gid)).
  set (session1 := <["record_id_" +:+ sid := new_id]> (<["last_tryon_session" := sid]> session)).
  assert (Hr0 : get_record (records ++ [r0]) new_id = Some r0).
  { rewrite HistoryFacts.get_record_app, Hfresh. simpl. now rewrite decide_True. }
  assert (Hrid : if_truthy (session1 !! ("record_id_" +:+ sid)) = Some new_id).
  { subst session1. rewrite lookup_insert_eq. now apply if_truthy_Some. }
  destruct (RouteFacts.poll_try_on_cases (_bg_job st sid o) session1 (records ++ [r0]) cmp sid)
    as (records' & body & E & _ & _ & _ & H4).
  rewrite E. cbn [fst snd]. rewrite Hrid in H4.
  assert (Hupd : forall a b c d,
            get_record (fst (update_record (records ++ [r0]) new_id a b c d)) new_id
              = Some (merge r0 a b c d) /\
            length (fst (update_record (records ++ [r0]) new_id a b c d))
              = S (length records)).
  { intros a b c d.
    destruct (HistoryFacts.update_record_spec (records ++ [r0]) new_id a b c d)
      as (U1 & U2 & _).
    rewrite Hr0 in U1. destruct U1 as [_ U1]. split; [exact U1|].
    rewrite U2, length_app. simpl. lia. }
  pose proof (get_result_after_job st sid o Hsid) as Hres.
  destruct (produced o) as [out|].
  - destruct Hres as [Hout Hres]. split.
    + rewrite H4.
      destruct (decide (dict_get (snd (get_result (_bg_job st sid o) sid)) "status" = Some "ok")).
      * destruct (if_truthy (dict_get _ "output")); [apply Hupd|].
        rewrite length_app. simpl. lia.
      * destruct (decide _); [apply Hupd|]. rewrite length_app. simpl. lia.
    + intros He. specialize (Hres He). rewrite Hres in H4.
      destruct (RouteFacts.dict_get_ok_result out) as (D1 & D2). rewrite D1, D2 in H4.
      rewrite decide_True in H4 by reflexivity.
      assert (Ht : if_truthy (Some out) = Some out) by now apply if_truthy_Some.
      rewrite Ht in H4. rewrite H4.
      exists (merge r0 (Some out) None (Some "success") None).
      split; [apply Hupd|]. repeat split.
  - destruct Hres as (msg & Hmsg & Hres). rewrite Hres in H4.
    destruct (RouteFacts.dict_get_error_result msg) as (D1 & _ & _ & D4). rewrite D1, D4 in H4.
    rewrite decide_False in H4 by discriminate.
    rewrite decide_True in H4 by reflexivity. rewrite H4. split; [apply Hupd|].
    exists (merge r0 None None (Some "failed") (Some msg)), msg.
    split; [exact Hmsg|]. split; [apply Hupd|]. repeat split.
Qed.

Lemma start_job_poll_witness :
  exists r,
    get_record
      (snd (fst (fst (poll_try_on
         (_bg_job (mkStore ∅ ∅ ∅) Scenario.sid Scenario.vendor_ok)
         (<["record_id_tryon_1700000000000" := StartScenario.record_id_1]>
            (<["last_tryon_session" := Scenario.sid]> StartScenario.visitor))
         [mkRecord StartScenario.record_id_1 "2025-01-01 10:00:00"
                   "/srv/demo/static/uploads/user_1.jpg" "/srv/demo/static/garments/bob.jpg"
                   None None "processing" None (Some "Bob") (Some "g1")]
         NoUrls Scenario.sid))))
      StartScenario.record_id_1 = Some r /\
    status r = "success" /\ result_photo_path r = Some Scenario.gen_path /\
    error_message r = None.
Proof.
  pose proof (start_job_poll StartScenario.demo_path (mkStore ∅ ∅ ∅)
                (Scenario.env_at 1700000000000) StartScenario.visitor []
                [StartScenario.bob] StartScenario.files "g1" "" StartScenario.valid
                StartScenario.record_id_1 "2025-01-01 10:00:00"
                (mkStore ∅ ∅ ∅) Scenario.sid
                (<["record_id_tryon_1700000000000" := StartScenario.record_id_1]>
                   (<["last_tryon_session" := Scenario.sid]> StartScenario.visitor))
                [mkRecord StartScenario.record_id_1 "2025-01-01 10:00:00"
                   "/srv/demo/static/uploads/user_1.jpg" "/srv/demo/static/garments/bob.jpg"
                   None None "processing" None (Some "Bob") (Some "g1")]
                (start_processing Scenario.sid
                   (Some "data:image/jpeg;base64,/9j/4AAQSkZJRg=="))
                Scenario.vendor_ok NoUrls) as H.
  destruct H as (_ & _ & H).
  - discriminate.
  - reflexivity.
  - vm_compute. reflexivity.
  - assert (P : produced Scenario.vendor_ok = Some Scenario.gen_path)
      by (vm_compute; reflexivity).
    rewrite P in H. apply H. vm_compute. reflexivity.
Defined.

End StartFacts.

(** ** Facts about the calls of [get_result], phase by phase *)

Module CallFacts.
Import TryOn Calls.

Lemma truthy_nonempty s : s <> "" -> truthy s = true.
Proof. apply truthy_true. Qed.

Lemma read_tables_cases st sid :
  (sid = "" /\ read_tables st sid = Some missing_result) \/
  (sid <> "" /\ exists msg, if_truthy (session_errors st !! sid) = Some msg /\
     read_tables st sid = Some (error_result msg)) \/
  (sid <> "" /\ if_truthy (session_errors st !! sid) = None /\
     exists out, session_outputs st !! sid = Some out /\
     read_tables st sid = Some (ok_result out)) \/
  (sid <> "" /\ if_truthy (session_errors st !! sid) = None /\
     session_outputs st !! sid = None /\ read_tables st sid = None).
Proof.
  unfold read_tables. destruct (decide (sid = "")) as [->|Hsid]; [left; split; reflexivity|].
  right. rewrite (truthy_nonempty sid Hsid). simpl.
  destruct (if_truthy (session_errors st !! sid)) as [msg|]; [left; eauto|].
  right. destruct (session_outputs st !! sid) as [out|]; [left; eauto|right; auto].
Qed.



(** A call that returns is a call of [TryOn.get_result]; a call that raises
    has found nothing in the tables and a name that is refused, and has
    written nothing. *)
Lemma get_result_returns refused st sid :
  match Calls.get_result refused st sid with
  | (st', Answer d) => TryOn.get_result st sid = (st', d)
  | (st', OSError) =>
      st' = st /\ read_tables st sid = None /\ refused (sid +:+ ".jpg") = true
  end.
Proof.
  unfold Calls.get_result, test_file, candidate_exists, write_output.
  destruct (read_tables_cases st sid) as
    [[-> H]|[(Hsid & msg & He & H)|[(Hsid & He & out & Ho & H)|(Hsid & He & Ho & H)]]];
    rewrite H.
  - reflexivity.
  - apply if_truthy_Some in He as [? ?]. now apply TryOnFacts.get_result_error.
  - now apply TryOnFacts.get_result_memo.
  - destruct (refused (sid +:+ ".jpg")); [auto|].
    destruct (decide (sid +:+ ".jpg" ∈ outputs_dir st)).
    + now apply TryOnFacts.get_result_file.
    + now apply TryOnFacts.get_result_pending.
Qed.

Section FileSystem.

Variable refused : string -> bool.

(** *** What a step leaves of the entries of a session *)





(** *** The frame of a call *)

(** X2. The three phases of a call of [get_result] for [sid] never change
    the error table, the outputs directory, the running jobs or the output
    recorded for another session. The table read and the file test write
    nothing. The write phase records the path of the file for [sid] whatever
    the tables hold by then. *)
Theorem poll_frame t sid ev t' resp :
  ev = Read sid \/ ev = Test sid \/ ev = Write sid ->
  step refused t ev = Some (t', resp) ->
  session_errors (store (service t')) = session_errors (store (service t)) /\
  outputs_dir (store (service t')) = outputs_dir (store (service t)) /\
  jobs (service t') = jobs (service t) /\
  (forall sid', sid' <> sid ->
     session_outputs (store (service t')) !! sid'
       = session_outputs (store (service t)) !! sid') /\
  (ev <> Write sid -> service t' = service t) /\
  (ev = Write sid ->
     session_outputs (store (service t')) !! sid
       = Some ("/static/outputs/" +:+ (sid +:+ ".jpg")) /\
     resp = Some (Answer {["status" := Some "ok";
                           "output" := Some ("/static/outputs/" +:+ (sid +:+ ".jpg"))]})).
Proof.
  intros [-> |[-> | ->]]; simpl; intros Hs.
  - destruct (read_tables (store (service t)) sid); injection Hs as <- <-;
      repeat split; auto; discriminate.
  - destruct (take_call (sid, Testing) (in_flight t)); [|discriminate Hs].
    destruct (test_file refused (store (service t)) sid); injection Hs as <- <-;
      repeat split; auto; discriminate.
  - destruct (take_call (sid, Writing) (in_flight t)); [|discriminate Hs].
    injection Hs as <- <-. simpl. repeat split; auto.
    + intros sid' Hne. now apply lookup_insert_ne.
    + intros H. now destruct H.
    + apply lookup_insert_eq.
Qed.

(** *** Sessions of which nothing is known *)

(** C9, as the code has it. With nothing recorded for [sid] and no file
    named after it, a call for a non-empty [sid] returns the dictionary with
    the one entry [status: pending] and writes nothing when the file system
    accepts the name [sid.jpg], whether or not the id was ever issued; when
    the file system refuses the name, the call ends with the [OSError] of the
    file test. A call that returns answers with status [error] exactly when
    [sid] is empty. *)
Theorem unknown_session_is_pending st sid :
  session_errors st !! sid = None ->
  session_outputs st !! sid = None ->
  sid +:+ ".jpg" ∉ outputs_dir st ->
  (sid <> "" -> refused (sid +:+ ".jpg") = false ->
     Calls.get_result refused st sid = (st, Answer {["status" := Some "pending"]})) /\
  (sid <> "" -> refused (sid +:+ ".jpg") = true ->
     Calls.get_result refused st sid = (st, OSError)) /\
  (forall d, snd (Calls.get_result refused st sid) = Answer d ->
     (dict_get d "status" = Some "error" <-> sid = "")).
Proof.
  intros He Ho Hf. unfold Calls.get_result, test_file, candidate_exists.
  destruct (read_tables_cases st sid) as
    [[-> H]|[(Hsid & msg & He' & H)|[(Hsid & He' & out & Ho' & H)|(Hsid & He' & Ho' & H)]]].
  - rewrite H. split; [intros Hn; now destruct Hn|]. split; [intros Hn; now destruct Hn|].
    intros d [= <-]. split; [reflexivity|intros _; reflexivity].
  - rewrite He in He'. discriminate He'.
  - rewrite Ho in Ho'. discriminate Ho'.
  - rewrite H. destruct (refused (sid +:+ ".jpg")).
    + split; [discriminate|]. split; [reflexivity|]. discriminate.
    + destruct (decide (sid +:+ ".jpg" ∈ outputs_dir st)); [contradiction|].
      split; [reflexivity|]. split; [discriminate|].
      intros d [= <-]. split; [discriminate|intros ->; now destruct Hsid].
Qed.

End FileSystem.



Lemma poll_frame_witness :
  session_outputs (store (service CallScenario.before_write)) !! Scenario.sid
    = Some Scenario.gen_path /\
  session_outputs (store (service CallScenario.overlap_end)) !! Scenario.sid
    = Some ("/static/outputs/" +:+ (Scenario.sid +:+ ".jpg")).
Proof.
  split; [vm_compute; reflexivity|].
  pose proof (poll_frame (name_too_long 255) CallScenario.before_write Scenario.sid
                (Write Scenario.sid) CallScenario.overlap_end
                (Some (Answer (ok_result CallScenario.file_path)))) as H.
  destruct H as (_ & _ & _ & _ & _ & H).
  - right; right; reflexivity.
  - vm_compute. reflexivity.
  - now destruct (H eq_refl).
Defined.

Lemma unknown_session_is_pending_witness :
  Calls.get_result (name_too_long 255) (store Scenario.memo_system) "tryon_never_issued"
    = (store Scenario.memo_system, Answer {["status" := Some "pending"]}).
Proof.
  apply (unknown_session_is_pending (name_too_long 255) (store Scenario.memo_system)
           "tryon_never_issued").
  - reflexivity.
  - vm_compute. reflexivity.
  - vm_compute. discriminate.
  - discriminate.
  - vm_compute. reflexivity.
Defined.

(** C9, as the claim states it, fails: for a session id of 300 bytes, with
    nothing recorded and no file, on a file system whose names have at most
    255 bytes, the call does not return [pending]: it ends with the
    [OSError] of the file test. An id of 251 bytes is the longest for which
    the name is accepted. *)
Lemma long_session_id_raises :
  CallScenario.long_sid <> "" /\
  String.length CallScenario.long_sid = 300%nat /\
  session_errors (mkStore ∅ ∅ ∅) !! CallScenario.long_sid = None /\
  session_outputs (mkStore ∅ ∅ ∅) !! CallScenario.long_sid = None /\
  (CallScenario.long_sid +:+ ".jpg" ∉ outputs_dir (mkStore ∅ ∅ ∅)) /\
  Calls.get_result (name_too_long 255) (mkStore ∅ ∅ ∅) CallScenario.long_sid
    = (mkStore ∅ ∅ ∅, OSError) /\
  name_too_long 255 (CallScenario.repeat_char 251 "a" +:+ ".jpg") = false /\
  name_too_long 255 (CallScenario.repeat_char 252 "a" +:+ ".jpg") = true.
Proof.
  split; [discriminate|]. split; [vm_compute; reflexivity|].
  split; [reflexivity|]. split; [reflexivity|].
  split; [apply not_elem_of_empty|].
  repeat split; vm_compute; reflexivity.
Qed.

End CallFacts.

(** ** The poll route when the file test can raise *)

Module RouteCallFacts.
Import TryOn History Routes.

(** X20. When the call of [get_result] returns, the [poll_try_on] route
    changes the session tables as that call does and answers with its
    status, message and output; the HTTP status is 500 when that status is
    [error] and 200 otherwise, and a [pending] answer leaves the history as
    it was. When the call ends with the [OSError] of the file test, which
    happens exactly for a non-empty id with no error and no output recorded
    whose file name is refused, the exception leaves the route: the tables
    and the history are as before and no body of the route is sent. *)
Theorem poll_try_on_answer refused st session records cmp sid :
  let out := poll_try_on_call refused st session records cmp sid in
  match snd out with
  | Unhandled =>
      Calls.get_result refused st sid = (st, Calls.OSError) /\
      fst (fst out) = st /\ snd (fst out) = records
  | Json body code =>
      exists status,
        Calls.get_result refused st sid = (fst (fst out), Calls.Answer status) /\
        dict_get body "status" = dict_get status "status" /\
        dict_get body "message" = dict_get status "message" /\
        dict_get body "output" = dict_get status "output" /\
        (code = 500 <-> dict_get status "status" = Some "error") /\
        (code = 200 <-> dict_get status "status" <> Some "error") /\
        (dict_get status "status" = Some "pending" -> snd (fst out) = records)
  end /\
  (snd out = Unhandled <->
   sid <> "" /\ if_truthy (session_errors st !! sid) = None /\
   session_outputs st !! sid = None /\ refused (sid +:+ ".jpg") = true).
Proof.
  intros out. subst out. unfold poll_try_on_call.
  pose proof (CallFacts.get_result_returns refused st sid) as Hret.
  destruct (Calls.get_result refused st sid) as [st' [status|]] eqn:Ecall.
  - destruct (RouteFacts.poll_try_on_cases st session records cmp sid)
      as (records' & body & E & H1 & H2 & H3 & H4).
    rewrite E, Hret in *. cbn [fst snd] in *. split.
    + exists status. split; [reflexivity|]. split; [exact H1|]. split; [exact H2|].
      split; [exact H3|].
      destruct (decide (dict_get status "status" = Some "error")) as [He|He].
      * split; [split; auto|]. split; [split; [discriminate|contradiction]|].
        intros Hp. rewrite Hp in He. discriminate.
      * split; [split; [discriminate|contradiction]|]. split; [split; auto|].
        intros Hp. rewrite H4. destruct (if_truthy _); [|reflexivity].
        rewrite decide_False by (rewrite Hp; discriminate). reflexivity.
    + split; [discriminate|]. intros (Hsid & He & Ho & Hr). exfalso.
      revert Ecall. unfold Calls.get_result, Calls.test_file, Calls.candidate_exists,
        Calls.read_tables.
      rewrite (CallFacts.truthy_nonempty sid Hsid). simpl. rewrite He, Ho, Hr. discriminate.
  - destruct Hret as (-> & Hread & Hr). cbn [fst snd]. split; [auto|].
    split; [intros _|reflexivity].
    destruct (CallFacts.read_tables_cases st sid) as
      [[-> H]|[(Hsid & msg & He & H)|[(Hsid & He & out & Ho & H)|(Hsid & He & Ho & H)]]];
      rewrite H in Hread; try discriminate Hread. auto.
Qed.

End RouteCallFacts.
